(** * Smart Study Buddy: the Streamlit front end of the RAG pipeline

    A shallow embedding of [Stream_lit/streamlit_app.py].  The script is a
    sequence of calls into Streamlit, the file system and the RAG backend
    ([extract_text], [get_conversational_answer],
    [_store_in_long_term_memory], [doc_collection], [chat_collection]).
    It is embedded as a program in a state-and-exception monad over a
    [world] that holds the session state, the two collections, the files on
    disk and a chronological log of everything the script printed, rendered
    or called; a call into the backend is logged with its arguments and
    with how it ended.

    The backend functions are not part of this file of the repository: they
    are taken as a parameter ([backend]) and every theorem quantifies over
    all of them.  The collection handles come from the backend module too;
    what their [delete] and [add] do is modelled from the specification.

    Exceptions are instances of Python's [Exception], the class that the
    two [except Exception] clauses of the script catch.  Streamlit calls
    and the calls on the temporary file return normally.  The static page
    chrome ([st.set_page_config], the title and the caption of the sidebar,
    the spinners) leaves no trace in the log. *)

From Stdlib Require Import ZArith Lia Ascii.
From stdpp Require Import base list strings pretty gmap.

Local Open Scope Z_scope.
Local Open Scope nat_scope.

(** ** Data model *)

(** A chunk as the extractor returns it: [{'content': ..., 'page_number': ...}]. *)
Record chunk := { content : string; page_number : Z }.

(** One element of [result['sources']]: [{'page': ...}]. *)
Record source := { page : Z }.

(** The dictionary returned by [get_conversational_answer]. *)
Record answer_result := { answer : string; sources : list source }.

(** One turn of [st.session_state.history]: [{"role": ..., "parts": ...}]. *)
Record message := { role : string; parts : string }.

(** The object returned by [st.file_uploader]. *)
Record uploaded_file := { name : string; getvalue : list Byte.byte }.

(** Instances of Python's [Exception]; [str e] is what an f-string prints. *)
Inductive exn := Exception (msg : string).

Definition str (e : exn) : string := let 'Exception m := e in m.

Inductive result (A : Type) :=
| Ok (a : A)
| Raise (e : exn).
Arguments Ok {A} a.
Arguments Raise {A} e.

(** ** The vector store *)

(** An entry of a collection.  Only the [page] key of the metadata is ever
    written or filtered on by the script; [None] is an entry whose metadata
    has no [page] key. *)
Record entry := {
  entry_id : string;
  entry_document : string;
  entry_page : option Z }.

Definition collection := list entry.

Inductive coll := DocC | ChatC.

(** Modelled from the spec: the [where] filter of the collection handle
    imported from the backend module (spec 4.2, [clear(predicate)]: deletes
    all entries matching the predicate).  [{"page": {"$gte": z}}] matches an
    entry when its metadata has a [page] and that page is at least [z]. *)
Definition matches_page_gte (z : Z) (e : entry) : bool :=
  match entry_page e with
  | Some p => (z <=? p)%Z
  | None => false
  end.

(** Modelled from the spec: [collection.delete(where={"page": {"$gte": z}})]
    of the collection handle imported from the backend module. *)
Definition delete_where_page_gte (z : Z) (c : collection) : collection :=
  List.filter (fun e => negb (matches_page_gte z e)) c.

Definition id_exists (c : collection) (i : string) : bool :=
  existsb (String.eqb i) (map entry_id c).

Fixpoint zip_entries (ids documents : list string) (metadatas : list (option Z))
  : collection :=
  match ids, documents, metadatas with
  | i :: ids', d :: documents', m :: metadatas' =>
      {| entry_id := i; entry_document := d; entry_page := m |}
        :: zip_entries ids' documents' metadatas'
  | _, _, _ => []
  end.

(** Modelled from the spec: [collection.add(documents, metadatas, ids)] of
    the collection handle imported from the backend module (spec 4.2: the
    three sequences must have equal length, [InvalidBatch] otherwise;
    [DuplicateId] if an id already exists). *)
Definition add_entries (documents : list string) (metadatas : list (option Z))
    (ids : list string) (c : collection) : result collection :=
  if negb ((length ids =? length documents) && (length documents =? length metadatas))
  then Raise (Exception "InvalidBatch")
  else if existsb (id_exists c) ids
  then Raise (Exception "DuplicateId")
  else Ok (c ++ zip_entries ids documents metadatas).

(** ** The world the script runs in *)

Inductive event :=
| Ev_print (s : string)
| Ev_st_error (s : string)
| Ev_st_success (s : string)
| Ev_st_warning (s : string)
| Ev_st_info (s : string)
| Ev_st_header (s : string)
| Ev_st_chat_message (r : string)
| Ev_st_markdown (s : string)
| Ev_st_caption (s : string)
| Ev_NamedTemporaryFile (filepath : string)
| Ev_os_remove (filepath : string)
| Ev_delete (c : coll) (returned : bool)
| Ev_add (documents : list string) (metadatas : list (option Z))
         (ids : list string) (returned : bool)
| Ev_extract_text (filepath : string) (r : result (list chunk))
| Ev_get_conversational_answer (prompt : string) (history : list message)
                               (r : result answer_result)
| Ev_store_in_long_term_memory (question ans : string) (returned : bool).

(** [st.session_state]: a key is absent until the script assigns it. *)
Record session_state := {
  history : option (list message);
  file_processed : option bool;
  file_name : option string }.

Record world := {
  st_session_state : session_state;
  doc_collection : collection;
  chat_collection : collection;
  files : gmap string (list Byte.byte);
  log : list event }.

Definition set_session (f : session_state -> session_state) (w : world) : world :=
  {| st_session_state := f (st_session_state w);
     doc_collection := doc_collection w;
     chat_collection := chat_collection w;
     files := files w;
     log := log w |}.

Definition set_collection (c : coll) (f : collection -> collection) (w : world)
  : world :=
  {| st_session_state := st_session_state w;
     doc_collection := match c with DocC => f (doc_collection w) | ChatC => doc_collection w end;
     chat_collection := match c with DocC => chat_collection w | ChatC => f (chat_collection w) end;
     files := files w;
     log := log w |}.

Definition set_files (f : gmap string (list Byte.byte) -> gmap string (list Byte.byte))
    (w : world) : world :=
  {| st_session_state := st_session_state w;
     doc_collection := doc_collection w;
     chat_collection := chat_collection w;
     files := f (files w);
     log := log w |}.

Definition add_log (e : event) (w : world) : world :=
  {| st_session_state := st_session_state w;
     doc_collection := doc_collection w;
     chat_collection := chat_collection w;
     files := files w;
     log := log w ++ [e] |}.

Definition get_collection (c : coll) (w : world) : collection :=
  match c with DocC => doc_collection w | ChatC => chat_collection w end.

(** ** The backend, as a parameter

    The functions imported from the backend module and the faults of the
    storage provider.  [be_extract_text] reads the file system (and may
    change it); [be_get_conversational_answer] reads the two collections;
    [be_store_in_long_term_memory] rewrites the chat-memory collection, also
    when it raises.  [be_delete_fault] and [be_add_fault] say when the
    provider raises ([StorageError]) instead of doing the operation.
    [be_tmpname] is the name [tempfile] picks for a given suffix. *)
Record backend := {
  be_extract_text :
    string -> gmap string (list Byte.byte) ->
    result (list chunk) * gmap string (list Byte.byte);
  be_get_conversational_answer :
    string -> list message -> collection -> collection -> result answer_result;
  be_store_in_long_term_memory :
    string -> string -> collection -> result unit * collection;
  be_delete_fault : coll -> collection -> option exn;
  be_add_fault : collection -> list string -> option exn;
  be_tmpname : gmap string (list Byte.byte) -> string -> string }.

(** ** The monad: state, and exceptions that keep the state *)

Definition M (A : Type) : Type := world -> result A * world.

Definition ret {A} (a : A) : M A := fun w => (Ok a, w).

Definition bind {A B} (m : M A) (k : A -> M B) : M B :=
  fun w =>
    match m w with
    | (Ok a, w') => k a w'
    | (Raise e, w') => (Raise e, w')
    end.

Definition raise {A} (e : exn) : M A := fun w => (Raise e, w).

(** [try: body except Exception as e: handler e]. *)
Definition try_except {A} (body : M A) (handler : exn -> M A) : M A :=
  fun w =>
    match body w with
    | (Ok a, w') => (Ok a, w')
    | (Raise e, w') => handler e w'
    end.

(** [try: body finally: cleanup]: the cleanup runs on both exits, and the
    outcome of the body is kept unless the cleanup itself raises. *)
Definition try_finally {A} (body : M A) (cleanup : M unit) : M A :=
  fun w =>
    match body w with
    | (r, w') =>
        match cleanup w' with
        | (Ok _, w'') => (r, w'')
        | (Raise e, w'') => (Raise e, w'')
        end
    end.

Declare Scope monad_scope.
Delimit Scope monad_scope with monad.
Notation "x <- m ;; k" := (bind m (fun x => k))
  (at level 100, m at next level, right associativity) : monad_scope.
Notation "m ;; k" := (bind m (fun _ => k))
  (at level 100, right associativity) : monad_scope.
Local Open Scope monad_scope.

Definition emit (e : event) : M unit := fun w => (Ok tt, add_log e w).

(** [when b m] is [if b: m]. *)
Definition when (b : bool) (m : M unit) : M unit := if b then m else ret tt.

(** ** Primitives: Streamlit, the standard library, the backend *)

Definition print (s : string) : M unit := emit (Ev_print s).
Definition st_error (s : string) : M unit := emit (Ev_st_error s).
Definition st_success (s : string) : M unit := emit (Ev_st_success s).
Definition st_warning (s : string) : M unit := emit (Ev_st_warning s).
Definition st_info (s : string) : M unit := emit (Ev_st_info s).
Definition st_header (s : string) : M unit := emit (Ev_st_header s).
Definition st_chat_message (r : string) : M unit := emit (Ev_st_chat_message r).
Definition st_markdown (s : string) : M unit := emit (Ev_st_markdown s).
Definition st_caption (s : string) : M unit := emit (Ev_st_caption s).

(** Reading an attribute of [st.session_state] that was never assigned
    raises [AttributeError]. *)
Definition get_attr {A} (key : string) (proj : session_state -> option A) : M A :=
  fun w =>
    match proj (st_session_state w) with
    | Some a => (Ok a, w)
    | None => (Raise (Exception ("st.session_state has no attribute " +:+ key)), w)
    end.

Definition get_history : M (list message) := get_attr "history" history.
Definition get_file_processed : M bool := get_attr "file_processed" file_processed.
Definition get_file_name : M string := get_attr "file_name" file_name.

Definition set_history (h : list message) : M unit :=
  fun w => (Ok tt, set_session (fun s =>
    {| history := Some h; file_processed := file_processed s;
       file_name := file_name s |}) w).

Definition set_file_processed (b : bool) : M unit :=
  fun w => (Ok tt, set_session (fun s =>
    {| history := history s; file_processed := Some b;
       file_name := file_name s |}) w).

Definition set_file_name (n : string) : M unit :=
  fun w => (Ok tt, set_session (fun s =>
    {| history := history s; file_processed := file_processed s;
       file_name := Some n |}) w).

(** [st.session_state.history.append(m)]. *)
Definition history_append (m : message) : M unit :=
  h <- get_history ;; set_history (h ++ [m]).

(** Truth value of a Python list and of a Python string. *)
Definition truthy {A} (l : list A) : bool :=
  match l with [] => false | _ :: _ => true end.

Definition truthy_str (s : string) : bool :=
  match s with EmptyString => false | String _ _ => true end.

(** [os.path.splitext(p)[1]] on POSIX: the extension starts at the last dot
    of the last path component, leading dots of that component not counted. *)
Fixpoint has_char (c : ascii) (s : string) : bool :=
  match s with
  | EmptyString => false
  | String c' s' => Ascii.eqb c c' || has_char c s'
  end.

Fixpoint basename (p : string) : string :=
  match p with
  | EmptyString => EmptyString
  | String c p' =>
      if has_char "/" p' then basename p'
      else if Ascii.eqb c "/" then p' else p
  end.

Fixpoint skip_dots (s : string) : string :=
  match s with
  | String "." s' => skip_dots s'
  | _ => s
  end.

Fixpoint from_last_dot (s : string) : string :=
  match s with
  | EmptyString => EmptyString
  | String c s' =>
      if has_char "." s' then from_last_dot s'
      else if Ascii.eqb c "." then s else EmptyString
  end.

Definition splitext_ext (p : string) : string :=
  from_last_dot (skip_dots (basename p)).

Section Script.

Variable B : backend.

(** [with tempfile.NamedTemporaryFile(delete=False, suffix=suffix) as tmp_file:
       tmp_file.write(data); filepath = tmp_file.name]. *)
Definition NamedTemporaryFile_write (suffix : string) (data : list Byte.byte)
  : M string :=
  fun w =>
    let filepath := be_tmpname B (files w) suffix +:+ suffix in
    (Ok filepath,
     add_log (Ev_NamedTemporaryFile filepath)
       (set_files (fun fs => <[filepath := data]> fs) w)).

Definition os_path_exists (filepath : string) : M bool :=
  fun w => (Ok (bool_decide (is_Some (files w !! filepath))), w).

Definition os_remove (filepath : string) : M unit :=
  fun w =>
    match files w !! filepath with
    | Some _ =>
        (Ok tt, add_log (Ev_os_remove filepath)
                  (set_files (fun fs => delete filepath fs) w))
    | None => (Raise (Exception "FileNotFoundError"), w)
    end.

(** [collection.delete(where={"page": {"$gte": z}})]. *)
Definition collection_delete (c : coll) (z : Z) : M unit :=
  fun w =>
    match be_delete_fault B c (get_collection c w) with
    | Some e => (Raise e, add_log (Ev_delete c false) w)
    | None =>
        (Ok tt, add_log (Ev_delete c true)
                  (set_collection c (delete_where_page_gte z) w))
    end.

(** [doc_collection.add(documents=..., metadatas=..., ids=...)]. *)
Definition doc_collection_add (documents : list string)
    (metadatas : list (option Z)) (ids : list string) : M unit :=
  fun w =>
    match be_add_fault B (doc_collection w) ids with
    | Some e => (Raise e, add_log (Ev_add documents metadatas ids false) w)
    | None =>
        match add_entries documents metadatas ids (doc_collection w) with
        | Ok c' =>
            (Ok tt, add_log (Ev_add documents metadatas ids true)
                      (set_collection DocC (fun _ => c') w))
        | Raise e => (Raise e, add_log (Ev_add documents metadatas ids false) w)
        end
    end.

Definition extract_text (filepath : string) : M (list chunk) :=
  fun w =>
    let '(r, fs') := be_extract_text B filepath (files w) in
    (r, add_log (Ev_extract_text filepath r) (set_files (fun _ => fs') w)).

Definition get_conversational_answer (prompt : string) (hist : list message)
  : M answer_result :=
  fun w =>
    let r := be_get_conversational_answer B prompt hist
               (doc_collection w) (chat_collection w) in
    (r, add_log (Ev_get_conversational_answer prompt hist r) w).

Definition _store_in_long_term_memory (question ans : string) : M unit :=
  fun w =>
    let '(r, c') := be_store_in_long_term_memory B question ans (chat_collection w) in
    (r, add_log (Ev_store_in_long_term_memory question ans
                   (match r with Ok _ => true | Raise _ => false end))
          (set_collection ChatC (fun _ => c') w)).

(** ** The script *)

(** Lines 26-31: the keys of the session state get their first value. *)
Definition init_session_state : M unit :=
  fun w => (Ok tt, set_session (fun s =>
    {| history := Some (default [] (history s));
       file_processed := Some (default false (file_processed s));
       file_name := Some (default EmptyString (file_name s)) |}) w).

(** Lines 45-94: the body of [if st.button("Process Document")]. *)
Definition process_document (uploaded_file : uploaded_file) : M unit :=
  filepath <- NamedTemporaryFile_write (splitext_ext (name uploaded_file))
                (getvalue uploaded_file) ;;
  try_finally
    (try_except
       (print "Clearing old collections..." ;;
        collection_delete DocC 0 ;;
        collection_delete ChatC 0 ;;
        print "Collections cleared." ;;
        set_history [] ;;
        print ("Extracting text from " +:+ filepath +:+ "...") ;;
        chunks <- extract_text filepath ;;
        if negb (truthy chunks) then
          st_error "File processed, but no text was extracted. Please try another file."
        else
          print ("Adding " +:+ pretty (length chunks) +:+ " chunks to ChromaDB...") ;;
          let documents_to_add := map content chunks in
          let metadatas_to_add := map (fun chunk => Some (page_number chunk)) chunks in
          let ids_to_add :=
            map (fun i => name uploaded_file +:+ "_chunk_" +:+ pretty i)
                (seq 0 (length chunks)) in
          doc_collection_add documents_to_add metadatas_to_add ids_to_add ;;
          set_file_processed true ;;
          set_file_name (name uploaded_file) ;;
          st_success ("Processed '" +:+ name uploaded_file +:+ "' ("
                      +:+ pretty (length chunks) +:+ " chunks added). Ready to chat!") ;;
          print "Processing complete.")
       (fun e =>
          st_error ("An error occurred during processing: " +:+ str e) ;;
          print ("Error: " +:+ str e)))
    (ex <- os_path_exists filepath ;;
     when ex (os_remove filepath)).

(** Lines 122-137: the [try] block of the chat handler; it yields the
    [answer] and [sources] that the rest of the handler renders. *)
Definition ask (prompt : string) : M answer_result :=
  try_except
    (h <- get_history ;;
     let history_for_llm := removelast h in
     result <- get_conversational_answer prompt history_for_llm ;;
     let answer_ := answer result in
     let sources_ := sources result in
     when (negb (String.prefix "Error" answer_))
          (_store_in_long_term_memory prompt answer_) ;;
     ret {| answer := answer_; sources := sources_ |})
    (fun e =>
       let answer_ := "Error generating response: " +:+ str e in
       let sources_ := [] in
       print ("Error in get_conversational_answer: " +:+ str e) ;;
       ret {| answer := answer_; sources := sources_ |}).

(** Lines 112-147: the body of [if prompt := st.chat_input(...)]. *)
Definition chat_input (prompt : string) : M unit :=
  fp <- get_file_processed ;;
  if negb fp then
    st_warning "Please upload and process a document first."
  else
    st_chat_message "user" ;;
    st_markdown prompt ;;
    history_append {| role := "user"; parts := prompt |} ;;
    r <- ask prompt ;;
    st_chat_message "model" ;;
    st_markdown (answer r) ;;
    when (truthy (sources r))
         (let source_str :=
            String.concat ", "
              (map (fun s => "Page " +:+ pretty (page s)) (sources r)) in
          st_caption ("Sources: " +:+ source_str)) ;;
    history_append {| role := "model"; parts := answer r |}.

(** Lines 104-106: the chat bubbles of the history. *)
Fixpoint display_history (h : list message) : M unit :=
  match h with
  | [] => ret tt
  | m :: h' =>
      st_chat_message (role m) ;; st_markdown (parts m) ;; display_history h'
  end.

(** What the widgets return in one run of the script. *)
Record widgets := {
  w_uploaded_file : option uploaded_file;
  w_button : bool;
  w_chat_input : option string }.

(** One run of the whole script, top to bottom. *)
Definition script (i : widgets) : M unit :=
  init_session_state ;;
  match w_uploaded_file i with
  | Some uploaded_file => when (w_button i) (process_document uploaded_file)
  | None => ret tt
  end ;;
  fp <- get_file_processed ;;
  (if fp then fn <- get_file_name ;; st_header ("Chat with: " +:+ fn)
   else st_header "Chat") ;;
  when (negb fp)
       (st_info "Please upload and process a document in the sidebar to begin.") ;;
  h <- get_history ;;
  display_history h ;;
  match w_chat_input i with
  | Some prompt => when (truthy_str prompt) (chat_input prompt)
  | None => ret tt
  end.

(** A session: the script runs once per interaction; a run that raises
    ends there and the next interaction starts a new run. *)
Fixpoint session (inputs : list widgets) (w : world) : world :=
  match inputs with
  | [] => w
  | i :: inputs' => session inputs' (snd (script i w))
  end.

End Script.

(** A world in which no run of the script has happened yet in this browser
    session; the collections and the disk are whatever they are. *)
Definition initial_world (docs chats : collection)
    (fs : gmap string (list Byte.byte)) : world :=
  {| st_session_state := {| history := None; file_processed := None; file_name := None |};
     doc_collection := docs;
     chat_collection := chats;
     files := fs;
     log := [] |}.

(** ** The outcomes of one run of the ingestion handler

    [process_document] has six ways through its [try] block.  They are
    listed here with what each leaves behind, and [process_document_outcome]
    below shows that every run is one of them. *)

(** The path [tempfile] hands out in a run that starts in [w]. *)
Definition tmp_path (B : backend) (up : uploaded_file) (w : world) : string :=
  be_tmpname B (files w) (splitext_ext (name up)) +:+ splitext_ext (name up).

Definition no_text_message : string :=
  "File processed, but no text was extracted. Please try another file.".

(** What the [except] branch of the ingestion handler shows and prints. *)
Definition error_events (e : exn) : list event :=
  [Ev_st_error ("An error occurred during processing: " +:+ str e);
   Ev_print ("Error: " +:+ str e)].

(** The log of a run up to the call of [extract_text], when both deletes
    return. *)
Definition cleared_events (filepath : string) : list event :=
  [Ev_print "Clearing old collections...";
   Ev_delete DocC true;
   Ev_delete ChatC true;
   Ev_print "Collections cleared.";
   Ev_print ("Extracting text from " +:+ filepath +:+ "...")].

(** The [finally] block removes the file when it is (still) there. *)
Definition removal_events (filepath : string)
    (fs : gmap string (list Byte.byte)) : list event :=
  if bool_decide (is_Some (fs !! filepath)) then [Ev_os_remove filepath] else [].

Definition with_history (h : list message) (s : session_state) : session_state :=
  {| history := Some h; file_processed := file_processed s;
     file_name := file_name s |}.

(** [doc_collection.add] raises: the provider fails, or the batch is
    refused. *)
Definition add_raises (B : backend) (documents : list string)
    (metadatas : list (option Z)) (ids : list string) (c : collection)
    (e : exn) : Prop :=
  be_add_fault B c ids = Some e \/
  (be_add_fault B c ids = None /\ add_entries documents metadatas ids c = Raise e).

Inductive ingestion (B : backend) (up : uploaded_file) (w : world) :
  session_state -> collection -> collection ->
  gmap string (list Byte.byte) -> list event -> Prop :=
| ing_doc_delete_raises e :
    be_delete_fault B DocC (doc_collection w) = Some e ->
    ingestion B up w (st_session_state w) (doc_collection w) (chat_collection w)
      (<[tmp_path B up w := getvalue up]> (files w))
      ([Ev_print "Clearing old collections..."; Ev_delete DocC false]
         ++ error_events e)
| ing_chat_delete_raises e :
    be_delete_fault B DocC (doc_collection w) = None ->
    be_delete_fault B ChatC (chat_collection w) = Some e ->
    ingestion B up w (st_session_state w)
      (delete_where_page_gte 0 (doc_collection w)) (chat_collection w)
      (<[tmp_path B up w := getvalue up]> (files w))
      ([Ev_print "Clearing old collections..."; Ev_delete DocC true;
        Ev_delete ChatC false] ++ error_events e)
| ing_extract_raises e fs' :
    be_delete_fault B DocC (doc_collection w) = None ->
    be_delete_fault B ChatC (chat_collection w) = None ->
    be_extract_text B (tmp_path B up w)
      (<[tmp_path B up w := getvalue up]> (files w)) = (Raise e, fs') ->
    ingestion B up w (with_history [] (st_session_state w))
      (delete_where_page_gte 0 (doc_collection w))
      (delete_where_page_gte 0 (chat_collection w)) fs'
      (cleared_events (tmp_path B up w)
         ++ [Ev_extract_text (tmp_path B up w) (Raise e)] ++ error_events e)
| ing_no_text fs' :
    be_delete_fault B DocC (doc_collection w) = None ->
    be_delete_fault B ChatC (chat_collection w) = None ->
    be_extract_text B (tmp_path B up w)
      (<[tmp_path B up w := getvalue up]> (files w)) = (Ok [], fs') ->
    ingestion B up w (with_history [] (st_session_state w))
      (delete_where_page_gte 0 (doc_collection w))
      (delete_where_page_gte 0 (chat_collection w)) fs'
      (cleared_events (tmp_path B up w)
         ++ [Ev_extract_text (tmp_path B up w) (Ok []);
             Ev_st_error no_text_message])
| ing_add_raises chunks fs' e :
    be_delete_fault B DocC (doc_collection w) = None ->
    be_delete_fault B ChatC (chat_collection w) = None ->
    be_extract_text B (tmp_path B up w)
      (<[tmp_path B up w := getvalue up]> (files w)) = (Ok chunks, fs') ->
    chunks <> [] ->
    add_raises B (map content chunks)
      (map (fun c => Some (page_number c)) chunks)
      (map (fun i => name up +:+ "_chunk_" +:+ pretty i) (seq 0 (length chunks)))
      (delete_where_page_gte 0 (doc_collection w)) e ->
    ingestion B up w (with_history [] (st_session_state w))
      (delete_where_page_gte 0 (doc_collection w))
      (delete_where_page_gte 0 (chat_collection w)) fs'
      (cleared_events (tmp_path B up w)
         ++ [Ev_extract_text (tmp_path B up w) (Ok chunks);
             Ev_print ("Adding " +:+ pretty (length chunks)
                       +:+ " chunks to ChromaDB...");
             Ev_add (map content chunks)
               (map (fun c => Some (page_number c)) chunks)
               (map (fun i => name up +:+ "_chunk_" +:+ pretty i)
                    (seq 0 (length chunks)))
               false]
         ++ error_events e)
| ing_added chunks fs' docs' :
    be_delete_fault B DocC (doc_collection w) = None ->
    be_delete_fault B ChatC (chat_collection w) = None ->
    be_extract_text B (tmp_path B up w)
      (<[tmp_path B up w := getvalue up]> (files w)) = (Ok chunks, fs') ->
    chunks <> [] ->
    be_add_fault B (delete_where_page_gte 0 (doc_collection w))
      (map (fun i => name up +:+ "_chunk_" +:+ pretty i) (seq 0 (length chunks)))
      = None ->
    add_entries (map content chunks)
      (map (fun c => Some (page_number c)) chunks)
      (map (fun i => name up +:+ "_chunk_" +:+ pretty i) (seq 0 (length chunks)))
      (delete_where_page_gte 0 (doc_collection w)) = Ok docs' ->
    ingestion B up w
      {| history := Some []; file_processed := Some true;
         file_name := Some (name up) |}
      docs' (delete_where_page_gte 0 (chat_collection w)) fs'
      (cleared_events (tmp_path B up w)
         ++ [Ev_extract_text (tmp_path B up w) (Ok chunks);
             Ev_print ("Adding " +:+ pretty (length chunks)
                       +:+ " chunks to ChromaDB...");
             Ev_add (map content chunks)
               (map (fun c => Some (page_number c)) chunks)
               (map (fun i => name up +:+ "_chunk_" +:+ pretty i)
                    (seq 0 (length chunks)))
               true;
             Ev_st_success ("Processed '" +:+ name up +:+ "' ("
                            +:+ pretty (length chunks)
                            +:+ " chunks added). Ready to chat!");
             Ev_print "Processing complete."]).

(** The world a run leaves, from what its [try] block left. *)
Definition finished (w : world) (filepath : string) (s : session_state)
    (docs chats : collection) (fs : gmap string (list Byte.byte))
    (evs : list event) : world :=
  {| st_session_state := s;
     doc_collection := docs;
     chat_collection := chats;
     files := delete filepath fs;
     log := log w ++ Ev_NamedTemporaryFile filepath :: evs
              ++ removal_events filepath fs |}.

(** ** The outcomes of one question

    The [try] block of the chat handler has four ways through it. *)

(** The answer the [except] branch of the chat handler builds. *)
Definition error_answer (e : exn) : string :=
  "Error generating response: " +:+ str e.

Definition error_print (e : exn) : event :=
  Ev_print ("Error in get_conversational_answer: " +:+ str e).

(** [asking B prompt h docs chats r chats' evs]: with [h] the history handed
    to the model, the block yields the answer and sources [r], leaves the
    chat-memory collection [chats'] and logs [evs]. *)
Inductive asking (B : backend) (prompt : string) (h : list message)
    (docs chats : collection) : answer_result -> collection -> list event -> Prop :=
| ask_answer_raises e :
    be_get_conversational_answer B prompt h docs chats = Raise e ->
    asking B prompt h docs chats
      {| answer := error_answer e; sources := [] |} chats
      [Ev_get_conversational_answer prompt h (Raise e); error_print e]
| ask_not_stored r :
    be_get_conversational_answer B prompt h docs chats = Ok r ->
    String.prefix "Error" (answer r) = true ->
    asking B prompt h docs chats
      {| answer := answer r; sources := sources r |} chats
      [Ev_get_conversational_answer prompt h (Ok r)]
| ask_stored r chats' :
    be_get_conversational_answer B prompt h docs chats = Ok r ->
    String.prefix "Error" (answer r) = false ->
    be_store_in_long_term_memory B prompt (answer r) chats = (Ok tt, chats') ->
    asking B prompt h docs chats
      {| answer := answer r; sources := sources r |} chats'
      [Ev_get_conversational_answer prompt h (Ok r);
       Ev_store_in_long_term_memory prompt (answer r) true]
| ask_store_raises r e chats' :
    be_get_conversational_answer B prompt h docs chats = Ok r ->
    String.prefix "Error" (answer r) = false ->
    be_store_in_long_term_memory B prompt (answer r) chats = (Raise e, chats') ->
    asking B prompt h docs chats
      {| answer := error_answer e; sources := [] |} chats'
      [Ev_get_conversational_answer prompt h (Ok r);
       Ev_store_in_long_term_memory prompt (answer r) false;
       error_print e].

(** The model's chat bubble: the answer and, when there are sources, the
    caption that lists their pages. *)
Definition bubble_events (r : answer_result) : list event :=
  [Ev_st_chat_message "model"; Ev_st_markdown (answer r)]
    ++ (if truthy (sources r)
        then [Ev_st_caption
                ("Sources: " +:+
                 String.concat ", "
                   (map (fun s => "Page " +:+ pretty (page s)) (sources r)))]
        else []).

Definition user_turn (prompt : string) : message :=
  {| role := "user"; parts := prompt |}.

Definition model_turn (ans : string) : message :=
  {| role := "model"; parts := ans |}.

(** The world a processed question leaves. *)
Definition answered (w : world) (prompt : string) (h : list message)
    (r : answer_result) (chats' : collection) (evs : list event) : world :=
  {| st_session_state :=
       with_history (h ++ [user_turn prompt; model_turn (answer r)])
         (st_session_state w);
     doc_collection := doc_collection w;
     chat_collection := chats';
     files := files w;
     log := log w ++ [Ev_st_chat_message "user"; Ev_st_markdown prompt]
              ++ evs ++ bubble_events r |}.

(** The chat bubbles of the stored history (lines 104-106). *)
Definition history_events (h : list message) : list event :=
  flat_map (fun m => [Ev_st_chat_message (role m); Ev_st_markdown (parts m)]) h.

(** ** One run of the script, in three steps

    [script] is the session-state initialisation followed by the sidebar,
    the page and the chat input; [script_run] below proves the split. *)

Definition initialised (s : session_state) : session_state :=
  {| history := Some (default [] (history s));
     file_processed := Some (default false (file_processed s));
     file_name := Some (default EmptyString (file_name s)) |}.

Definition after_sidebar (B : backend) (i : widgets) (w : world) : world :=
  match w_uploaded_file i with
  | Some up => if w_button i then snd (process_document B up w) else w
  | None => w
  end.

(** Lines 97-106: the header, the hint and the bubbles of the history. *)
Definition page_events (s : session_state) : list event :=
  (if default false (file_processed s)
   then [Ev_st_header ("Chat with: " +:+ default EmptyString (file_name s))]
   else [Ev_st_header "Chat";
         Ev_st_info "Please upload and process a document in the sidebar to begin."])
    ++ history_events (default [] (history s)).

Definition after_page (w : world) : world :=
  {| st_session_state := st_session_state w;
     doc_collection := doc_collection w;
     chat_collection := chat_collection w;
     files := files w;
     log := log w ++ page_events (st_session_state w) |}.

Definition after_chat (B : backend) (i : widgets) (w : world) : world :=
  match w_chat_input i with
  | Some prompt => if truthy_str prompt then snd (chat_input B prompt w) else w
  | None => w
  end.

(** Every key of the session state has a value. *)
Definition ready (s : session_state) : Prop :=
  is_Some (history s) /\ is_Some (file_processed s) /\ is_Some (file_name s).

(** ** Properties of logs *)

(** An add is logged only after both deletes of the run have returned. *)
Definition clears_precede_adds (evs : list event) : Prop :=
  forall pre documents metadatas ids returned post,
    evs = pre ++ Ev_add documents metadatas ids returned :: post ->
    In (Ev_delete DocC true) pre /\ In (Ev_delete ChatC true) pre.

(** The same, as a check that runs over the log: [doc_done] and [chat_done]
    say whether the deletes have been seen. *)
Fixpoint adds_cleared (doc_done chat_done : bool) (evs : list event) : bool :=
  match evs with
  | [] => true
  | Ev_add _ _ _ _ :: evs' =>
      doc_done && chat_done && adds_cleared doc_done chat_done evs'
  | Ev_delete DocC true :: evs' => adds_cleared true chat_done evs'
  | Ev_delete ChatC true :: evs' => adds_cleared doc_done true evs'
  | _ :: evs' => adds_cleared doc_done chat_done evs'
  end.

(** A call of [doc_collection.add] that returned, with at least one chunk. *)
Definition is_ingestion (e : event) : bool :=
  match e with
  | Ev_add _ _ (_ :: _) true => true
  | _ => false
  end.

Definition is_answer_call (e : event) : bool :=
  match e with
  | Ev_get_conversational_answer _ _ _ => true
  | _ => false
  end.

(** A call into the backend or the vector store. *)
Definition is_backend_call (e : event) : bool :=
  match e with
  | Ev_delete _ _ | Ev_add _ _ _ _ | Ev_extract_text _ _
  | Ev_get_conversational_answer _ _ _
  | Ev_store_in_long_term_memory _ _ _ => true
  | _ => false
  end.

(** Every call of [get_conversational_answer] in the log comes after an
    add that returned with a non-empty batch. *)
Definition answers_follow_ingestion (l : list event) : Prop :=
  forall pre prompt h r post,
    l = pre ++ Ev_get_conversational_answer prompt h r :: post ->
    exists documents metadatas ids,
      In (Ev_add documents metadatas ids true) pre /\ ids <> [].

Fixpoint answers_guarded (ingested : bool) (l : list event) : bool :=
  match l with
  | [] => true
  | e :: l' =>
      (negb (is_answer_call e) || ingested)
        && answers_guarded (ingested || is_ingestion e) l'
  end.

(** The roles of a history read user, model, user, model, ... and end on a
    model turn; [expect_user] says whose turn comes next. *)
Fixpoint alternates (expect_user : bool) (h : list message) : bool :=
  match h with
  | [] => expect_user
  | m :: h' =>
      String.eqb (role m) (if expect_user then "user" else "model")
        && alternates (negb expect_user) h'
  end.

(** ** A small backend and some inputs, to run the script on *)

Definition demo_chunks : list chunk :=
  [ {| content := "Freedonia is a small country."; page_number := 1 |};
    {| content := "The capital of Freedonia is Example City."; page_number := 2 |} ].

(** Extraction yields two pages for a file with bytes in it and nothing for
    an empty file; the model answers from the first stored chunk; the memory
    writer stores the pair without a [page]. *)
Definition demo_backend : backend :=
  {| be_extract_text := fun filepath fs =>
       match fs !! filepath with
       | Some [] => (Ok [], fs)
       | Some (_ :: _) => (Ok demo_chunks, fs)
       | None => (Raise (Exception "FileNotFoundError"), fs)
       end;
     be_get_conversational_answer := fun prompt h docs chats =>
       match docs with
       | [] => Ok {| answer := "Error: no document"; sources := [] |}
       | e :: _ => Ok {| answer := entry_document e; sources := [ {| page := 1 |} ] |}
       end;
     be_store_in_long_term_memory := fun question ans chats =>
       (Ok tt, chats ++ [ {| entry_id := "memory_" +:+ pretty (length chats);
                             entry_document := question +:+ " " +:+ ans;
                             entry_page := None |} ]);
     be_delete_fault := fun _ _ => None;
     be_add_fault := fun _ _ => None;
     be_tmpname := fun _ _ => "/tmp/tmpk3v9" |}.

(** The same backend with a model that is down. *)
Definition demo_backend_model_down : backend :=
  {| be_extract_text := be_extract_text demo_backend;
     be_get_conversational_answer := fun _ _ _ _ => Raise (Exception "ModelError");
     be_store_in_long_term_memory := be_store_in_long_term_memory demo_backend;
     be_delete_fault := be_delete_fault demo_backend;
     be_add_fault := be_add_fault demo_backend;
     be_tmpname := be_tmpname demo_backend |}.


Definition notes_txt : uploaded_file :=
  {| name := "notes.txt"; getvalue := [Byte.x46; Byte.x72] |}.

Definition empty_txt : uploaded_file :=
  {| name := "empty.txt"; getvalue := [] |}.

Definition click_process (up : uploaded_file) : widgets :=
  {| w_uploaded_file := Some up; w_button := true; w_chat_input := None |}.

Definition type_prompt (prompt : string) : widgets :=
  {| w_uploaded_file := None; w_button := false; w_chat_input := Some prompt |}.

Definition fresh_world : world := initial_world [] [] ∅.

(** [notes.txt] has been processed, nothing asked yet. *)
Definition demo_ingested : world :=
  session demo_backend [click_process notes_txt] fresh_world.

(** [notes.txt] has been processed and one question answered. *)
Definition demo_asked : world :=
  session demo_backend [click_process notes_txt; type_prompt "Capital?"] fresh_world.

(** The events of the run that processes [notes.txt] in [fresh_world]. *)
Definition demo_ingestion_events : list event :=
  drop (length (log fresh_world))
       (log (snd (process_document demo_backend notes_txt fresh_world))).

(** The events of the run that processes [empty.txt] in [fresh_world]. *)
Definition demo_empty_events : list event :=
  drop (length (log fresh_world))
       (log (snd (process_document demo_backend empty_txt fresh_world))).


(** ** The invariant of a session

    What holds of the world between two runs of the script: the model has
    only been called after an ingestion, the flag is true only if there has
    been one, and the history alternates. *)
Definition session_inv (w : world) : Prop :=
  answers_guarded false (log w) = true /\
  (file_processed (st_session_state w) = Some true ->
   existsb is_ingestion (log w) = true) /\
  alternates true (default [] (history (st_session_state w))) = true.

(** ** What a run was asked to do, and what it reports *)

(** The run processes a document: a file is uploaded and the button is
    clicked (lines 43-44). *)
Definition ingests (i : widgets) : bool :=
  match w_uploaded_file i with
  | Some _ => w_button i
  | None => false
  end.

(** The run handles a prompt: the chat input returned a non-empty string
    (line 110). *)
Definition asks (i : widgets) : bool :=
  match w_chat_input i with
  | Some prompt => truthy_str prompt
  | None => false
  end.

(** The messages with which the ingestion handler tells the user how the
    run ended: [st.error] and [st.success]. *)
Definition is_outcome_message (e : event) : bool :=
  match e with
  | Ev_st_error _ | Ev_st_success _ => true
  | _ => false
  end.

(** Some call of the [try] block of the ingestion handler raised. *)
Definition raised_in (evs : list event) : Prop :=
  In (Ev_delete DocC false) evs \/
  In (Ev_delete ChatC false) evs \/
  (exists filepath e, In (Ev_extract_text filepath (Raise e)) evs) \/
  (exists documents metadatas ids, In (Ev_add documents metadatas ids false) evs).

(** Every history that was handed to the model alternates. *)
Definition answers_alternate (l : list event) : Prop :=
  forall prompt h r,
    In (Ev_get_conversational_answer prompt h r) l -> alternates true h = true.

(** The invariant of a session, with the histories the model was given. *)
Definition session_inv_model (w : world) : Prop :=
  answers_alternate (log w) /\
  alternates true (default [] (history (st_session_state w))) = true.

(** [s] ends with [suffix]. *)
Definition ends_with (suffix s : string) : Prop :=
  exists root, s = root +:+ suffix.

(** The demo backend with a storage provider that is down. *)
Definition demo_backend_store_down : backend :=
  {| be_extract_text := be_extract_text demo_backend;
     be_get_conversational_answer := be_get_conversational_answer demo_backend;
     be_store_in_long_term_memory := be_store_in_long_term_memory demo_backend;
     be_delete_fault := fun _ _ => Some (Exception "StorageError");
     be_add_fault := be_add_fault demo_backend;
     be_tmpname := be_tmpname demo_backend |}.

(** A run in which the user touched nothing. *)
Definition rerun : widgets :=
  {| w_uploaded_file := None; w_button := false; w_chat_input := None |}.

(** The events of the run that processes [notes.txt] while the storage
    provider is down. *)
Definition demo_store_down_events : list event :=
  drop (length (log fresh_world))
       (log (snd (process_document demo_backend_store_down notes_txt fresh_world))).


(** * Proofs *)

(** ** Running the handlers symbolically *)

(** Unfolds the monad, the primitives and the record fields, and nothing
    of the data (strings, numbers, maps). *)
Ltac msimpl :=
  cbv [bind ret raise try_except try_finally emit when print st_error st_success
       st_warning st_info st_header st_chat_message st_markdown st_caption
       get_attr get_history get_file_processed get_file_name set_history
       set_file_processed set_file_name history_append
       NamedTemporaryFile_write os_path_exists os_remove collection_delete
       doc_collection_add extract_text get_conversational_answer
       _store_in_long_term_memory init_session_state
       set_session set_collection set_files add_log get_collection
       st_session_state doc_collection chat_collection files log
       history file_processed file_name fst snd negb truthy].

Ltac norm_log :=
  cbv [error_events cleared_events with_history error_print error_answer];
  rewrite <- ?app_assoc; reflexivity.

(** The [finally] block never raises, removes the file and touches nothing
    else. *)
Lemma finally_removes (filepath : string) (w : world) :
  (ex <- os_path_exists filepath ;; when ex (os_remove filepath)) w =
  (Ok tt, {| st_session_state := st_session_state w;
             doc_collection := doc_collection w;
             chat_collection := chat_collection w;
             files := delete filepath (files w);
             log := log w ++ removal_events filepath (files w) |}).
Proof.
  destruct w as [s docs chats fs l]. unfold removal_events. msimpl.
  destruct (fs !! filepath) eqn:Hf.
  - rewrite bool_decide_true by eauto. msimpl. rewrite Hf. reflexivity.
  - rewrite bool_decide_false by (intros [? ?]; congruence).
    msimpl. rewrite delete_id by assumption. rewrite app_nil_r. reflexivity.
Qed.

(** Every run of the ingestion handler returns normally and is one of the
    six outcomes. *)
Lemma process_document_outcome B up w :
  exists s docs chats fs evs,
    ingestion B up w s docs chats fs evs /\
    process_document B up w =
      (Ok tt, finished w (tmp_path B up w) s docs chats fs evs).
Proof.
  unfold process_document, bind at 1, try_finally, NamedTemporaryFile_write.
  fold (tmp_path B up w).
  match goal with
  | |- context [try_except ?b ?h ?w1] =>
      assert (exists s docs chats fs evs,
                 ingestion B up w s docs chats fs evs /\
                 try_except b h w1 =
                   (Ok tt, {| st_session_state := s; doc_collection := docs;
                              chat_collection := chats; files := fs;
                              log := log w ++ Ev_NamedTemporaryFile (tmp_path B up w) :: evs |}))
        as (s & docs & chats & fs & evs & Hing & ->)
  end.
  { destruct w as [s docs chats fs l].
    pose proof (ing_doc_delete_raises B up (Build_world s docs chats fs l)) as C1.
    pose proof (ing_chat_delete_raises B up (Build_world s docs chats fs l)) as C2.
    pose proof (ing_extract_raises B up (Build_world s docs chats fs l)) as C3.
    pose proof (ing_no_text B up (Build_world s docs chats fs l)) as C4.
    pose proof (ing_add_raises B up (Build_world s docs chats fs l)) as C5.
    pose proof (ing_added B up (Build_world s docs chats fs l)) as C6.
    unfold add_raises in C5.
    generalize dependent (tmp_path B up (Build_world s docs chats fs l)).
    intros fp C1 C2 C3 C4 C5 C6. msimpl.
    cbn [files doc_collection chat_collection st_session_state] in *.
    destruct (be_delete_fault B DocC docs) as [e|] eqn:Hd1.
    { do 5 eexists; split; [exact (C1 e eq_refl)|]. norm_log. }
    destruct (be_delete_fault B ChatC chats) as [e|] eqn:Hd2.
    { do 5 eexists; split; [exact (C2 e eq_refl eq_refl)|]. norm_log. }
    destruct (be_extract_text B fp _) as [[chunks|e] fs'] eqn:Hx.
    2:{ do 5 eexists; split; [exact (C3 e fs' eq_refl eq_refl eq_refl)|]. norm_log. }
    destruct chunks as [|c chunks].
    { do 5 eexists; split; [exact (C4 fs' eq_refl eq_refl eq_refl)|]. norm_log. }
    cbn [negb truthy].
    destruct (be_add_fault B _ _) as [e|] eqn:Ha.
    { do 5 eexists; split;
        [exact (C5 (c :: chunks) fs' e eq_refl eq_refl eq_refl
                  ltac:(discriminate) (or_introl Ha))|].
      norm_log. }
    destruct (add_entries _ _ _ _) as [docs'|e] eqn:Hadd.
    { do 5 eexists; split;
        [exact (C6 (c :: chunks) fs' docs' eq_refl eq_refl eq_refl
                  ltac:(discriminate) Ha Hadd)|].
      norm_log. }
    do 5 eexists; split;
      [exact (C5 (c :: chunks) fs' e eq_refl eq_refl eq_refl
                ltac:(discriminate) (or_intror (conj Ha Hadd)))|].
    norm_log. }
  rewrite finally_removes. exists s, docs, chats, fs, evs. split; [exact Hing|].
  unfold finished. cbn [st_session_state doc_collection chat_collection files log].
  rewrite <- app_assoc. reflexivity.
Qed.

(** [h[:-1]] right after [h.append(m)] is the history before the append. *)
Lemma removelast_snoc {A} (l : list A) (x : A) : removelast (l ++ [x]) = l.
Proof. apply removelast_last. Qed.

(** The [try] block of the chat handler never raises and is one of the four
    outcomes. *)
Lemma ask_outcome B prompt s h docs chats fs l :
  history s = Some (h ++ [user_turn prompt]) ->
  exists r chats' evs,
    asking B prompt h docs chats r chats' evs /\
    ask B prompt (Build_world s docs chats fs l) =
      (Ok r, Build_world s docs chats' fs (l ++ evs)).
Proof.
  intros Hh. destruct s as [oh ofp ofn]. cbn [history] in Hh. subst oh.
  unfold ask. msimpl. rewrite removelast_snoc.
  destruct (be_get_conversational_answer B prompt h docs chats) as [r|e] eqn:Hg.
  2:{ do 3 eexists; split; [eapply ask_answer_raises; eassumption|]. norm_log. }
  destruct (String.prefix "Error" (answer r)) eqn:Hp; msimpl.
  { do 3 eexists; split; [eapply ask_not_stored; eassumption|]. reflexivity. }
  destruct (be_store_in_long_term_memory B prompt (answer r) chats)
    as [[[]|e] chats'] eqn:Hs.
  { do 3 eexists; split; [eapply ask_stored; eassumption|]. norm_log. }
  do 3 eexists; split; [eapply ask_store_raises; eassumption|]. norm_log.
Qed.

(** A question asked once a document is processed: the handler returns
    normally and leaves the world [answered]. *)
Lemma chat_input_outcome B prompt w h :
  file_processed (st_session_state w) = Some true ->
  history (st_session_state w) = Some h ->
  exists r chats' evs,
    asking B prompt h (doc_collection w) (chat_collection w) r chats' evs /\
    chat_input B prompt w = (Ok tt, answered w prompt h r chats' evs).
Proof.
  intros Hfp Hh. destruct w as [[oh ofp ofn] docs chats fs l].
  cbn [st_session_state history file_processed doc_collection chat_collection] in *.
  subst oh ofp.
  unfold chat_input, bind at 1. unfold get_file_processed, get_attr at 1.
  cbn [st_session_state file_processed negb].
  msimpl.
  edestruct (ask_outcome B prompt) as (r & chats' & evs & Hask & ->);
    [|exists r, chats', evs; split; [exact Hask|]].
  { reflexivity. }
  unfold answered, bubble_events, user_turn, model_turn, with_history.
  cbn [st_session_state file_processed file_name history doc_collection
       chat_collection files log].
  destruct (sources r); cbn [truthy]; rewrite <- ?app_assoc; reflexivity.
Qed.

(** A question asked before any document is processed: a warning, and
    nothing else happens. *)
Lemma chat_input_not_processed B prompt w :
  file_processed (st_session_state w) = Some false ->
  chat_input B prompt w =
    (Ok tt, add_log (Ev_st_warning "Please upload and process a document first.") w).
Proof.
  intros Hfp. destruct w as [[oh ofp ofn] docs chats fs l].
  cbn [st_session_state file_processed] in Hfp. subst ofp. reflexivity.
Qed.

(** ** One run of the script *)

Lemma display_history_run h w :
  display_history h w =
    (Ok tt, {| st_session_state := st_session_state w;
               doc_collection := doc_collection w;
               chat_collection := chat_collection w;
               files := files w;
               log := log w ++ history_events h |}).
Proof.
  revert w. induction h as [|m h IH]; intros [s docs chats fs l].
  - cbn. rewrite app_nil_r. reflexivity.
  - cbn [display_history]. msimpl. rewrite IH. msimpl.
    cbn [history_events flat_map]. rewrite <- !app_assoc. reflexivity.
Qed.

Lemma initialised_ready s : ready (initialised s).
Proof. unfold ready, initialised; cbn; eauto. Qed.

Lemma ingestion_ready B up w s docs chats fs evs :
  ingestion B up w s docs chats fs evs ->
  ready (st_session_state w) -> ready s.
Proof.
  intros Hing (Hh & Hp & Hn).
  destruct Hing; unfold ready, with_history; cbn; eauto.
Qed.

Lemma after_sidebar_ready B i w :
  ready (st_session_state w) -> ready (st_session_state (after_sidebar B i w)).
Proof.
  intros Hr. unfold after_sidebar.
  destruct (w_uploaded_file i) as [up|]; [|exact Hr].
  destruct (w_button i); [|exact Hr].
  destruct (process_document_outcome B up w)
    as (s & docs & chats & fs & evs & Hing & ->).
  cbn. eapply ingestion_ready; eassumption.
Qed.

Lemma chat_input_ok B prompt w :
  ready (st_session_state w) -> fst (chat_input B prompt w) = Ok tt.
Proof.
  intros ([h Hh] & [[] Hp] & _).
  - destruct (chat_input_outcome B prompt w h Hp Hh) as (r & c & evs & _ & ->).
    reflexivity.
  - rewrite chat_input_not_processed by assumption. reflexivity.
Qed.

Lemma script_run B i w :
  script B i w =
    (Ok tt,
     after_chat B i (after_page (after_sidebar B i (set_session initialised w)))).
Proof.
  unfold script, bind at 1.
  change (init_session_state w) with (Ok tt, set_session initialised w).
  cbv iota beta.
  pose proof (after_sidebar_ready B i (set_session initialised w)
                (initialised_ready _)) as Hr.
  unfold bind at 1.
  assert (match w_uploaded_file i with
          | Some up => when (w_button i) (process_document B up)
          | None => ret tt
          end (set_session initialised w)
          = (Ok tt, after_sidebar B i (set_session initialised w))) as ->.
  { unfold after_sidebar. destruct (w_uploaded_file i) as [up|]; [|reflexivity].
    destruct (w_button i); [|reflexivity]. cbn [when].
    destruct (process_document_outcome B up (set_session initialised w))
      as (s & docs & chats & fs & evs & _ & ->). reflexivity. }
  cbv iota beta.
  destruct (after_sidebar B i (set_session initialised w))
    as [[oh ofp ofn] docs chats fs l].
  destruct Hr as ([h Hh] & [fp Hp] & [fn Hn]).
  cbn [st_session_state history file_processed file_name] in Hh, Hp, Hn.
  subst oh ofp ofn.
  assert (forall w2 : world,
             ready (st_session_state w2) ->
             match w_chat_input i with
             | Some prompt => when (truthy_str prompt) (chat_input B prompt)
             | None => ret tt
             end w2 = (Ok tt, after_chat B i w2)) as Hchat.
  { intros w2 Hr2. unfold after_chat.
    destruct (w_chat_input i) as [prompt|]; [|reflexivity].
    destruct (truthy_str prompt); [|reflexivity]. cbn [when].
    pose proof (chat_input_ok B prompt w2 Hr2) as Hok.
    destruct (chat_input B prompt w2) as [r w3]. cbn in Hok. subst r. reflexivity. }
  destruct fp; msimpl; rewrite display_history_run; msimpl.
  - rewrite Hchat by (unfold ready; cbn; eauto).
    unfold after_page, page_events. cbn. rewrite <- ?app_assoc. reflexivity.
  - rewrite Hchat by (unfold ready; cbn; eauto).
    unfold after_page, page_events. cbn. rewrite <- ?app_assoc. reflexivity.
Qed.

(** ** Logs *)

Lemma in_removal_events e filepath fs :
  In e (removal_events filepath fs) -> e = Ev_os_remove filepath.
Proof.
  unfold removal_events. destruct (bool_decide _); cbn; intuition congruence.
Qed.

Lemma adds_cleared_sound evs :
  forall doc_done chat_done,
    adds_cleared doc_done chat_done evs = true ->
    forall pre documents metadatas ids returned post,
      evs = pre ++ Ev_add documents metadatas ids returned :: post ->
      (doc_done = true \/ In (Ev_delete DocC true) pre) /\
      (chat_done = true \/ In (Ev_delete ChatC true) pre).
Proof.
  induction evs as [|e evs IH]; intros d c Hc pre docs metas ids ret post Heq.
  - destruct pre; discriminate.
  - destruct pre as [|e' pre]; cbn [app] in Heq; injection Heq as He Heq; subst e.
    + cbn in Hc. destruct d, c; try discriminate; auto.
    + assert (exists d' c',
                 adds_cleared d' c' evs = true /\
                 (d' = true -> d = true \/ e' = Ev_delete DocC true) /\
                 (c' = true -> c = true \/ e' = Ev_delete ChatC true))
        as (d' & c' & Hc' & Hd & Hch).
      { destruct e' as [| | | | | | | | | | |[] []| | | |]; cbn in Hc;
          try (exists d, c; split; [exact Hc|tauto]).
        - exists true, c; split; [exact Hc|tauto].
        - exists d, true; split; [exact Hc|tauto].
        - destruct d, c; try discriminate. exists true, true. cbn in Hc. tauto. }
      destruct (IH d' c' Hc' pre docs metas ids ret post Heq) as [H1 H2].
      cbn [In]. split.
      * destruct H1 as [H1|H1]; [destruct (Hd H1); auto|auto].
      * destruct H2 as [H2|H2]; [destruct (Hch H2); auto|auto].
Qed.

Lemma ingestion_adds_cleared B up w s docs chats fs evs :
  ingestion B up w s docs chats fs evs ->
  adds_cleared false false
    (Ev_NamedTemporaryFile (tmp_path B up w) :: evs
       ++ removal_events (tmp_path B up w) fs) = true.
Proof.
  intros Hing. unfold removal_events.
  destruct Hing; destruct (bool_decide _); reflexivity.
Qed.

(** C5: in every run of the ingestion handler, an add to the document
    collection is logged only after the delete on the document collection
    and the delete on the chat-memory collection have both returned in that
    run. *)
Theorem deletes_precede_add B up w :
  exists evs,
    log (snd (process_document B up w)) = log w ++ evs /\
    clears_precede_adds evs.
Proof.
  destruct (process_document_outcome B up w)
    as (s & docs & chats & fs & evs & Hing & ->).
  eexists; split; [reflexivity|].
  intros pre documents metadatas ids returned post Heq.
  pose proof (adds_cleared_sound _ _ _ (ingestion_adds_cleared _ _ _ _ _ _ _ _ Hing)
                _ _ _ _ _ _ Heq) as [[?|?] [?|?]];
    try discriminate; auto.
Qed.

(** C10: every run of the ingestion handler returns normally, creates one
    temporary file, and that file is gone when the run is over, whatever
    happened in between. *)
Theorem temporary_file_removed B up w :
  fst (process_document B up w) = Ok tt /\
  exists filepath evs,
    log (snd (process_document B up w)) =
      log w ++ Ev_NamedTemporaryFile filepath :: evs /\
    (forall p, ~ In (Ev_NamedTemporaryFile p) evs) /\
    files (snd (process_document B up w)) !! filepath = None.
Proof.
  destruct (process_document_outcome B up w)
    as (s & docs & chats & fs & evs & Hing & ->).
  split; [reflexivity|].
  exists (tmp_path B up w), (evs ++ removal_events (tmp_path B up w) fs).
  split; [reflexivity|]. split.
  - intros p Hin. apply in_app_or in Hin as [Hin|Hin].
    + destruct Hing; cbn in Hin; intuition discriminate.
    + apply in_removal_events in Hin. discriminate.
  - cbn. apply lookup_delete_eq.
Qed.

(** The events of a run, from its log. *)
Lemma process_document_events B up w evs :
  log (snd (process_document B up w)) = log w ++ evs ->
  exists s docs chats fs evs0,
    ingestion B up w s docs chats fs evs0 /\
    process_document B up w =
      (Ok tt, finished w (tmp_path B up w) s docs chats fs evs0) /\
    evs = Ev_NamedTemporaryFile (tmp_path B up w) :: evs0
            ++ removal_events (tmp_path B up w) fs.
Proof.
  destruct (process_document_outcome B up w)
    as (s & docs & chats & fs & evs0 & Hing & Heq).
  rewrite Heq. cbn [snd finished log]. intros Hlog.
  apply app_inv_head in Hlog. subst evs. eauto 10.
Qed.

(** Splits [In e l] for a log [l] that is written out. *)
Ltac log_cases H :=
  cbv [cleared_events error_events] in H;
  repeat (rewrite in_app_iff in H || cbn [In app] in H);
  repeat match type of H with
         | _ \/ _ => destruct H as [H|H]
         | False => destruct H
         | In _ (removal_events _ _) => apply in_removal_events in H
         end;
  try discriminate.

(** Proves [In e l] for a log [l] that is written out. *)
Ltac log_member :=
  cbv [cleared_events error_events];
  repeat (rewrite in_app_iff || cbn [In app]); tauto.

Lemma chunk_id_inj (F : string) :
  Inj (=) (=) (fun i : nat => F +:+ "_chunk_" +:+ pretty i).
Proof.
  intros i j Heq.
  apply String.app_inj in Heq. apply String.app_inj in Heq.
  exact (pretty_nat_inj _ _ Heq).
Qed.

Lemma chunk_ids_spec (F : string) (n : nat) :
  let ids := map (fun i : nat => F +:+ "_chunk_" +:+ pretty i) (seq 0 n) in
  length ids = n /\
  (forall i, i < n -> ids !! i = Some (F +:+ "_chunk_" +:+ pretty i)) /\
  NoDup ids.
Proof.
  cbv zeta. split; [|split].
  - rewrite length_map, length_seq. reflexivity.
  - intros i Hi.
    change (map ?f ?l) with (f <$> l).
    rewrite list_lookup_fmap, lookup_seq_lt by assumption. reflexivity.
  - change (map ?f ?l) with (f <$> l).
    apply (NoDup_fmap_2 _ (Inj0 := chunk_id_inj F)), NoDup_seq.
Qed.

(** C6: in a run of the ingestion handler on a file named [name up] whose
    extraction returned [chunks], every add to the document collection is
    called with the documents and pages in chunk order and with the ids
    [name up ++ "_chunk_" ++ i] for [i = 0 .. length chunks - 1], in that
    order; these ids are pairwise distinct; and when there is at least one
    chunk the add is called. *)
Theorem chunk_ids_exact B up w evs filepath chunks :
  log (snd (process_document B up w)) = log w ++ evs ->
  In (Ev_extract_text filepath (Ok chunks)) evs ->
  exists ids,
    length ids = length chunks /\
    (forall i, i < length chunks ->
               ids !! i = Some (name up +:+ "_chunk_" +:+ pretty i)) /\
    NoDup ids /\
    (forall d m i r,
       In (Ev_add d m i r) evs ->
       d = map content chunks /\
       m = map (fun c => Some (page_number c)) chunks /\
       i = ids) /\
    (chunks <> [] ->
     exists returned,
       In (Ev_add (map content chunks)
             (map (fun c => Some (page_number c)) chunks) ids returned) evs).
Proof.
  intros Hlog Hin.
  destruct (process_document_events B up w evs Hlog)
    as (s & docs & chats & fs & evs0 & Hing & _ & ->).
  destruct (chunk_ids_spec (name up) (length chunks)) as (Hlen & Hnth & Hnd).
  eexists. split; [exact Hlen|]. split; [exact Hnth|]. split; [exact Hnd|].
  destruct Hing; log_cases Hin; simplify_eq.
  - split; [|congruence]. intros d m i r Hadd. log_cases Hadd.
  - split.
    + intros d m i r Hadd. log_cases Hadd. simplify_eq. auto.
    + intros _. exists false. log_member.
  - split.
    + intros d m i r Hadd. log_cases Hadd. simplify_eq. auto.
    + intros _. exists true. log_member.
Qed.

(** C7: in a run of the ingestion handler in which [extract_text] returned
    the empty list, the handler returns normally, shows the error message
    that no text was extracted and no other error message (in particular
    not the message of the [except] branch, which has not run), calls no
    add, shows no success message, and leaves [file_processed] and
    [file_name] as they were. *)
Theorem no_text_reported B up w evs filepath :
  log (snd (process_document B up w)) = log w ++ evs ->
  In (Ev_extract_text filepath (Ok [])) evs ->
  fst (process_document B up w) = Ok tt /\
  In (Ev_st_error
        "File processed, but no text was extracted. Please try another file.")
     evs /\
  (forall msg, In (Ev_st_error msg) evs ->
     msg = "File processed, but no text was extracted. Please try another file.") /\
  (forall e,
     "File processed, but no text was extracted. Please try another file."
     <> "An error occurred during processing: " +:+ str e) /\
  (forall e, ~ In (Ev_print ("Error: " +:+ str e)) evs) /\
  (forall d m i r, ~ In (Ev_add d m i r) evs) /\
  (forall msg, ~ In (Ev_st_success msg) evs) /\
  file_processed (st_session_state (snd (process_document B up w)))
    = file_processed (st_session_state w) /\
  file_name (st_session_state (snd (process_document B up w)))
    = file_name (st_session_state w).
Proof.
  intros Hlog Hin.
  destruct (process_document_events B up w evs Hlog)
    as (s & docs & chats & fs & evs0 & Hing & -> & ->).
  destruct Hing; log_cases Hin; simplify_eq; try congruence.
  split; [reflexivity|]. split; [|split; [|split; [|split; [|split; [|split]]]]].
  - log_member.
  - intros msg Hm. log_cases Hm. simplify_eq. reflexivity.
  - intros e. cbn. discriminate.
  - intros e Hp. log_cases Hp; cbn in Hp; discriminate.
  - intros d m i r Ha. log_cases Ha.
  - intros msg Hs. log_cases Hs.
  - split; reflexivity.
Qed.

(** ** The filter [page >= 0] *)







(** ** One question *)

(** C3: when a document is processed and [get_conversational_answer]
    raises, the chat handler returns normally; it prints the error, renders
    a model bubble whose text starts with "Error" and names the exception,
    renders no sources, and appends the question and that text to the
    history. *)
Theorem answer_failure_degrades B prompt w h e :
  file_processed (st_session_state w) = Some true ->
  history (st_session_state w) = Some h ->
  be_get_conversational_answer B prompt h (doc_collection w) (chat_collection w)
    = Raise e ->
  fst (chat_input B prompt w) = Ok tt /\
  String.prefix "Error" ("Error generating response: " +:+ str e) = true /\
  log (snd (chat_input B prompt w)) =
    log w ++ [Ev_st_chat_message "user";
              Ev_st_markdown prompt;
              Ev_get_conversational_answer prompt h (Raise e);
              Ev_print ("Error in get_conversational_answer: " +:+ str e);
              Ev_st_chat_message "model";
              Ev_st_markdown ("Error generating response: " +:+ str e)] /\
  history (st_session_state (snd (chat_input B prompt w))) =
    Some (h ++ [ {| role := "user"; parts := prompt |};
                 {| role := "model";
                    parts := "Error generating response: " +:+ str e |} ]).
Proof.
  intros Hfp Hh Hg.
  destruct (chat_input_outcome B prompt w h Hfp Hh)
    as (r & chats' & evs & Hask & ->).
  destruct Hask; try congruence.
  rewrite Hg in *. simplify_eq.
  repeat split.
Qed.

(** The calls of the memory writer in the log of a question are those of
    the [try] block. *)
Lemma store_in_answered question ans returned prompt evs r :
  In (Ev_store_in_long_term_memory question ans returned)
     ([Ev_st_chat_message "user"; Ev_st_markdown prompt] ++ evs ++ bubble_events r)
  <-> In (Ev_store_in_long_term_memory question ans returned) evs.
Proof.
  unfold bubble_events. rewrite !in_app_iff.
  destruct (truthy _); cbn; intuition discriminate.
Qed.

(** C4: when a document is processed and [get_conversational_answer]
    returns, [_store_in_long_term_memory] is called, with the question and
    the answer, exactly when the answer does not start with "Error"; an
    answer that starts with "Error" leaves the chat-memory collection as it
    was. *)
Theorem memory_written_iff_not_error B prompt w h r :
  file_processed (st_session_state w) = Some true ->
  history (st_session_state w) = Some h ->
  be_get_conversational_answer B prompt h (doc_collection w) (chat_collection w)
    = Ok r ->
  exists evs,
    log (snd (chat_input B prompt w)) = log w ++ evs /\
    ((exists returned,
        In (Ev_store_in_long_term_memory prompt (answer r) returned) evs)
     <-> String.prefix "Error" (answer r) = false) /\
    (forall question ans returned,
       In (Ev_store_in_long_term_memory question ans returned) evs ->
       question = prompt /\ ans = answer r) /\
    (String.prefix "Error" (answer r) = true ->
     chat_collection (snd (chat_input B prompt w)) = chat_collection w).
Proof.
  intros Hfp Hh Hg.
  destruct (chat_input_outcome B prompt w h Hfp Hh)
    as (r' & chats' & evs & Hask & ->).
  eexists; split; [reflexivity|].
  setoid_rewrite store_in_answered.
  destruct Hask; rewrite Hg in *; simplify_eq; cbn [snd answered chat_collection];
    match goal with H : String.prefix _ _ = _ |- _ => rewrite H end.
  - split; [|split; [|reflexivity]].
    + split; [|discriminate]. intros [b Hin]. cbn in Hin. intuition discriminate.
    + intros q a b Hin. cbn in Hin. intuition discriminate.
  - split; [|split; [|discriminate]].
    + split; [reflexivity|]. intros _. exists true. cbn. tauto.
    + intros q a b Hin. cbn in Hin.
      destruct Hin as [?|[?|[]]]; simplify_eq; auto.
  - split; [|split; [|discriminate]].
    + split; [reflexivity|]. intros _. exists false. cbn. tauto.
    + intros q a b Hin. cbn in Hin.
      destruct Hin as [?|[?|[?|[]]]]; simplify_eq; auto.
Qed.



(** ** Invariants of a session *)

Lemma answers_guarded_true l : answers_guarded true l = true.
Proof.
  induction l as [|e l IH]; cbn; [reflexivity|].
  rewrite IH, orb_true_r. reflexivity.
Qed.

Lemma answers_guarded_app l1 : forall b l2,
  answers_guarded b (l1 ++ l2) =
  answers_guarded b l1 && answers_guarded (b || existsb is_ingestion l1) l2.
Proof.
  induction l1 as [|e l1 IH]; intros b l2; cbn.
  - rewrite orb_false_r. reflexivity.
  - rewrite IH, <- andb_assoc, orb_assoc. reflexivity.
Qed.

Lemma answers_guarded_quiet l : forall b,
  forallb (fun e => negb (is_answer_call e)) l = true -> answers_guarded b l = true.
Proof.
  induction l as [|e l IH]; intros b Hq; cbn in *; [reflexivity|].
  apply andb_prop in Hq as [-> Hq]. cbn. apply IH, Hq.
Qed.

Lemma answers_guarded_sound l : forall b,
  answers_guarded b l = true ->
  forall pre prompt h r post,
    l = pre ++ Ev_get_conversational_answer prompt h r :: post ->
    b = true \/ existsb is_ingestion pre = true.
Proof.
  induction l as [|e l IH]; intros b Hg pre prompt h r post Heq.
  - destruct pre; discriminate.
  - destruct pre as [|e' pre]; cbn [app] in Heq; injection Heq as He Heq; subst e.
    + cbn in Hg. apply andb_prop in Hg as [Hg _]. auto.
    + cbn in Hg. apply andb_prop in Hg as [_ Hg].
      destruct (IH _ Hg _ _ _ _ _ Heq) as [Hb|Hb].
      * apply orb_prop in Hb as [Hb|Hb]; [auto|]. right. cbn. rewrite Hb. reflexivity.
      * right. cbn. rewrite Hb. apply orb_true_r.
Qed.

Lemma existsb_is_ingestion l :
  existsb is_ingestion l = true ->
  exists documents metadatas ids,
    In (Ev_add documents metadatas ids true) l /\ ids <> [].
Proof.
  intros H. apply existsb_exists in H as (e & Hin & He).
  destruct e as [| | | | | | | | | | | |d m [|i ids] []| | |]; try discriminate.
  exists d, m, (i :: ids). split; [exact Hin|discriminate].
Qed.

Lemma alternates_snoc_turns h : forall b prompt ans,
  alternates b (h ++ [user_turn prompt; model_turn ans]) = alternates b h.
Proof.
  induction h as [|m h IH]; intros b prompt ans.
  - destruct b; reflexivity.
  - cbn [app alternates]. rewrite IH. reflexivity.
Qed.

Lemma ingestion_quiet B up w s docs chats fs evs :
  ingestion B up w s docs chats fs evs ->
  forallb (fun e => negb (is_answer_call e))
    (Ev_NamedTemporaryFile (tmp_path B up w) :: evs
       ++ removal_events (tmp_path B up w) fs) = true.
Proof.
  intros Hing. unfold removal_events.
  destruct Hing; destruct (bool_decide _); reflexivity.
Qed.

(** The flag is set only by a run whose add returned with a non-empty
    batch. *)
Lemma ingestion_flag B up w s docs chats fs evs :
  ingestion B up w s docs chats fs evs ->
  file_processed s = Some true ->
  file_processed (st_session_state w) = Some true \/
  existsb is_ingestion evs = true.
Proof.
  intros Hing Hfp. destruct Hing; cbn in Hfp; auto.
  right. destruct chunks as [|c chunks]; [congruence|]. reflexivity.
Qed.

Lemma ingestion_history B up w s docs chats fs evs :
  ingestion B up w s docs chats fs evs ->
  history s = history (st_session_state w) \/ history s = Some [].
Proof. intros Hing. destruct Hing; cbn; auto. Qed.

Lemma inv_initial docs chats fs : session_inv (initial_world docs chats fs).
Proof. repeat split. discriminate. Qed.

Lemma inv_initialised w : session_inv w -> session_inv (set_session initialised w).
Proof.
  intros (Hg & Hf & Ha). destruct w as [[oh ofp ofn] docs chats fs l].
  unfold session_inv in *. cbn in *. repeat split; try assumption.
  intros Hp. apply Hf. destruct ofp as [[]|]; cbn in Hp; congruence.
Qed.

Lemma inv_process_document B up w :
  session_inv w -> session_inv (snd (process_document B up w)).
Proof.
  intros (Hg & Hf & Ha).
  destruct (process_document_outcome B up w)
    as (s & docs & chats & fs & evs & Hing & ->).
  unfold session_inv. cbn [snd finished log st_session_state]. repeat split.
  - rewrite answers_guarded_app, Hg.
    apply (answers_guarded_quiet _ _ (ingestion_quiet _ _ _ _ _ _ _ _ Hing)).
  - intros Hp. rewrite existsb_app.
    destruct (ingestion_flag _ _ _ _ _ _ _ _ Hing Hp) as [H|H].
    + rewrite (Hf H). reflexivity.
    + cbn [existsb is_ingestion orb]. rewrite existsb_app, H. cbn.
      apply orb_true_r.
  - destruct (ingestion_history _ _ _ _ _ _ _ _ Hing) as [-> | ->];
      [exact Ha|reflexivity].
Qed.

Lemma history_events_quiet h :
  forallb (fun e => negb (is_backend_call e)) (history_events h) = true.
Proof. induction h as [|m h IH]; cbn; [reflexivity|exact IH]. Qed.

Lemma page_events_quiet s :
  forallb (fun e => negb (is_backend_call e)) (page_events s) = true.
Proof.
  unfold page_events. rewrite forallb_app, history_events_quiet.
  destruct (default false _); reflexivity.
Qed.

Lemma quiet_no_answer l :
  forallb (fun e => negb (is_backend_call e)) l = true ->
  forallb (fun e => negb (is_answer_call e)) l = true.
Proof.
  rewrite !forallb_forall. intros H e Hin. specialize (H e Hin).
  destruct e; cbn in *; congruence.
Qed.

Lemma inv_after_page w : session_inv w -> session_inv (after_page w).
Proof.
  intros (Hg & Hf & Ha). unfold session_inv, after_page. cbn. repeat split.
  - rewrite answers_guarded_app, Hg.
    apply answers_guarded_quiet, quiet_no_answer, page_events_quiet.
  - intros Hp. rewrite existsb_app, (Hf Hp). reflexivity.
  - exact Ha.
Qed.

Lemma inv_chat_input B prompt w :
  ready (st_session_state w) ->
  session_inv w -> session_inv (snd (chat_input B prompt w)).
Proof.
  intros ([h Hh] & [[] Hp] & _) (Hg & Hf & Ha).
  - destruct (chat_input_outcome B prompt w h Hp Hh) as (r & c & evs & _ & ->).
    unfold session_inv, answered. cbn [snd log st_session_state]. repeat split.
    + rewrite answers_guarded_app, Hg, (Hf Hp). apply answers_guarded_true.
    + intros _. rewrite existsb_app, (Hf Hp). reflexivity.
    + cbn. rewrite alternates_snoc_turns. rewrite Hh in Ha. exact Ha.
  - rewrite chat_input_not_processed by assumption.
    unfold session_inv. cbn. repeat split.
    + rewrite answers_guarded_app, Hg. reflexivity.
    + intros Hp'. congruence.
    + exact Ha.
Qed.

Lemma after_page_ready w :
  ready (st_session_state w) -> ready (st_session_state (after_page w)).
Proof. intros H; exact H. Qed.

Lemma inv_script B i w : session_inv w -> session_inv (snd (script B i w)).
Proof.
  intros Hinv. rewrite script_run. cbn [snd].
  pose proof (after_sidebar_ready B i (set_session initialised w)
                (initialised_ready _)) as Hr.
  assert (session_inv (after_sidebar B i (set_session initialised w))) as H1.
  { unfold after_sidebar. destruct (w_uploaded_file i) as [up|];
      [destruct (w_button i)|]; auto using inv_initialised, inv_process_document. }
  apply inv_after_page in H1. unfold after_chat.
  destruct (w_chat_input i) as [prompt|]; [|exact H1].
  destruct (truthy_str prompt); [|exact H1].
  apply inv_chat_input; [exact Hr|exact H1].
Qed.

Lemma inv_session B inputs : forall w,
  session_inv w -> session_inv (session B inputs w).
Proof.
  induction inputs as [|i inputs IH]; intros w Hinv; cbn [session];
    [exact Hinv|]. apply IH, inv_script, Hinv.
Qed.

(** ** The guard in front of the model *)

Lemma chat_input_guard B prompt w evs p h r :
  log (snd (chat_input B prompt w)) = log w ++ evs ->
  In (Ev_get_conversational_answer p h r) evs ->
  file_processed (st_session_state w) = Some true.
Proof.
  intros Hlog Hin.
  destruct (file_processed (st_session_state w)) as [[]|] eqn:Hfp; [reflexivity| |].
  - rewrite chat_input_not_processed in Hlog by assumption.
    cbn in Hlog. apply app_inv_head in Hlog. subst evs.
    cbn in Hin. intuition discriminate.
  - destruct w as [[oh ofp ofn] docs chats fs l]. cbn in Hfp. subst ofp.
    cbn in Hlog. rewrite <- (app_nil_r l) in Hlog at 1.
    apply app_inv_head in Hlog. subst evs. destruct Hin.
Qed.

Lemma process_document_flag B up w :
  file_processed (st_session_state (snd (process_document B up w))) = Some true ->
  file_processed (st_session_state w) = Some true \/
  exists evs documents metadatas ids,
    log (snd (process_document B up w)) = log w ++ evs /\
    In (Ev_add documents metadatas ids true) evs /\ ids <> [].
Proof.
  destruct (process_document_outcome B up w)
    as (s & docs & chats & fs & evs & Hing & ->).
  cbn [snd finished st_session_state log]. intros Hfp.
  destruct (ingestion_flag _ _ _ _ _ _ _ _ Hing Hfp) as [H|H]; [auto|right].
  apply existsb_is_ingestion in H as (d & m & ids & Hin & Hne).
  eexists _, d, m, ids. split; [reflexivity|]. split; [|exact Hne].
  right. apply in_or_app. auto.
Qed.

(** Asked before any ingestion has succeeded, a question gets the page,
    the warning and nothing else. *)
Lemma prompt_before_ingestion B i prompt w :
  session_inv w ->
  existsb is_ingestion (log w) = false ->
  w_button i = false ->
  w_chat_input i = Some prompt ->
  truthy_str prompt = true ->
  exists evs,
    log (snd (script B i w)) = log w ++ evs /\
    In (Ev_st_warning "Please upload and process a document first.") evs /\
    forallb (fun e => negb (is_backend_call e)) evs = true.
Proof.
  intros (_ & Hf & _) Hno Hb Hc Ht.
  rewrite script_run. cbn [snd].
  assert (after_sidebar B i (set_session initialised w) = set_session initialised w)
    as ->.
  { unfold after_sidebar. rewrite Hb. destruct (w_uploaded_file i); reflexivity. }
  unfold after_chat. rewrite Hc, Ht.
  assert (file_processed (st_session_state (after_page (set_session initialised w)))
          = Some false) as Hfp.
  { cbn. destruct (file_processed (st_session_state w)) as [[]|] eqn:Hp;
      [|reflexivity..]. rewrite (Hf eq_refl) in Hno. discriminate. }
  rewrite chat_input_not_processed by exact Hfp.
  cbn [snd add_log log after_page set_session].
  rewrite <- app_assoc. eexists; split; [reflexivity|]. split.
  - apply in_or_app. right. left. reflexivity.
  - rewrite forallb_app, page_events_quiet. reflexivity.
Qed.

(** C8: [get_conversational_answer] is called by the chat handler only
    when [file_processed] is true, and a prompt that finds it false gets
    the warning and nothing else; the ingestion handler turns the flag true
    only in a run whose add returned with a non-empty batch.  So along any
    session that starts with a new session state, every call of
    [get_conversational_answer] comes after such an add, the flag is true
    only if there has been one, and a prompt submitted while there has been
    none is answered by the warning, with no call into the backend. *)
Theorem answers_only_after_ingestion B docs chats fs inputs up prompt w i :
  (forall evs p h r,
     log (snd (chat_input B prompt w)) = log w ++ evs ->
     In (Ev_get_conversational_answer p h r) evs ->
     file_processed (st_session_state w) = Some true) /\
  (file_processed (st_session_state w) = Some false ->
   chat_input B prompt w =
     (Ok tt, add_log (Ev_st_warning "Please upload and process a document first.") w)) /\
  (file_processed (st_session_state (snd (process_document B up w))) = Some true ->
   file_processed (st_session_state w) = Some true \/
   exists evs documents metadatas ids,
     log (snd (process_document B up w)) = log w ++ evs /\
     In (Ev_add documents metadatas ids true) evs /\ ids <> []) /\
  answers_follow_ingestion (log (session B inputs (initial_world docs chats fs))) /\
  (file_processed (st_session_state (session B inputs (initial_world docs chats fs)))
     = Some true ->
   exists documents metadatas ids,
     In (Ev_add documents metadatas ids true)
        (log (session B inputs (initial_world docs chats fs))) /\
     ids <> []) /\
  ((forall documents metadatas ids,
      In (Ev_add documents metadatas ids true)
         (log (session B inputs (initial_world docs chats fs))) -> ids = []) ->
   w_button i = false ->
   w_chat_input i = Some prompt ->
   prompt <> EmptyString ->
   exists evs,
     log (snd (script B i (session B inputs (initial_world docs chats fs)))) =
       log (session B inputs (initial_world docs chats fs)) ++ evs /\
     In (Ev_st_warning "Please upload and process a document first.") evs /\
     forall e, In e evs -> is_backend_call e = false).
Proof.
  pose proof (inv_session B inputs _ (inv_initial docs chats fs)) as Hinv.
  split; [|split; [|split; [|split; [|split]]]].
  - intros evs p h r. apply chat_input_guard.
  - apply chat_input_not_processed.
  - apply process_document_flag.
  - destruct Hinv as (Hg & _ & _).
    intros pre p h r post Heq.
    destruct (answers_guarded_sound _ _ Hg _ _ _ _ _ Heq) as [?|H]; [discriminate|].
    exact (existsb_is_ingestion _ H).
  - destruct Hinv as (_ & Hf & _). intros Hp.
    exact (existsb_is_ingestion _ (Hf Hp)).
  - intros Hnone Hb Hc Hne.
    destruct (prompt_before_ingestion B i prompt _ Hinv) as (evs & Hlog & Hw & Hq);
      try assumption.
    + destruct (existsb is_ingestion _) eqn:He; [|reflexivity].
      apply existsb_is_ingestion in He as (d & m & ids & Hin & Hids).
      destruct (Hids (Hnone _ _ _ Hin)).
    + destruct prompt; [congruence|reflexivity].
    + exists evs. split; [exact Hlog|]. split; [exact Hw|].
      intros e Hin. rewrite forallb_forall in Hq. specialize (Hq e Hin).
      destruct (is_backend_call e); [discriminate|reflexivity].
Qed.

(** ** The history *)

(** The ingestion handler empties the history once both deletes have
    returned, and leaves it alone before that. *)
Lemma process_document_history B up w :
  exists evs,
    log (snd (process_document B up w)) = log w ++ evs /\
    (In (Ev_delete ChatC true) evs ->
     history (st_session_state (snd (process_document B up w))) = Some []) /\
    (~ In (Ev_delete ChatC true) evs ->
     history (st_session_state (snd (process_document B up w)))
       = history (st_session_state w)).
Proof.
  destruct (process_document_outcome B up w)
    as (s & docs & chats & fs & evs & Hing & ->).
  eexists; split; [reflexivity|].
  cbn [snd finished st_session_state].
  destruct Hing; (split; [intros Hin|intros Hn]);
    try reflexivity; try (log_cases Hin; fail); destruct Hn; log_member.
Qed.

(** C9, as amended: a question asked once a document is processed appends
    to the history the prompt as a "user" turn and then the rendered text
    as a "model" turn, and nothing else, whether the model answered or
    raised; [get_conversational_answer] is called once, with the history as
    it was before the prompt was appended.  The ingestion handler is the
    one place where the history is not appended to: it empties it once both
    deletes have returned.  Either way the history keeps alternating, and
    along any session that starts with a new session state it reads user,
    model, user, model, ... *)
Theorem history_appends_alternating_turns B prompt up w h docs chats fs inputs :
  file_processed (st_session_state w) = Some true ->
  history (st_session_state w) = Some h ->
  (exists ans r before after,
     fst (chat_input B prompt w) = Ok tt /\
     history (st_session_state (snd (chat_input B prompt w))) =
       Some (h ++ [ {| role := "user"; parts := prompt |};
                    {| role := "model"; parts := ans |} ]) /\
     log (snd (chat_input B prompt w)) =
       log w ++ before
             ++ [Ev_get_conversational_answer prompt h r] ++ after /\
     (forall p' h' r', ~ In (Ev_get_conversational_answer p' h' r') before) /\
     (forall p' h' r', ~ In (Ev_get_conversational_answer p' h' r') after) /\
     (exists pre post,
        after = pre ++ [Ev_st_chat_message "model"; Ev_st_markdown ans] ++ post) /\
     (forall e, r = Raise e -> ans = "Error generating response: " +:+ str e) /\
     alternates true (h ++ [ {| role := "user"; parts := prompt |};
                             {| role := "model"; parts := ans |} ])
       = alternates true h) /\
  (exists evs,
     log (snd (process_document B up w)) = log w ++ evs /\
     (In (Ev_delete ChatC true) evs ->
      history (st_session_state (snd (process_document B up w))) = Some []) /\
     (~ In (Ev_delete ChatC true) evs ->
      history (st_session_state (snd (process_document B up w))) = Some h)) /\
  alternates true
    (default [] (history (st_session_state
                            (session B inputs (initial_world docs chats fs)))))
    = true.
Proof.
  intros Hfp Hh. split; [|split].
  2:{ rewrite <- Hh. apply process_document_history. }
  2:{ apply (inv_session B inputs _ (inv_initial docs chats fs)). }
  destruct (chat_input_outcome B prompt w h Hfp Hh)
    as (r & chats' & evs & Hask & ->).
  exists (answer r),
    (be_get_conversational_answer B prompt h (doc_collection w) (chat_collection w)),
    [Ev_st_chat_message "user"; Ev_st_markdown prompt].
  destruct Hask as [e Hg|r Hg Hp|r c' Hg Hp Hs|r e c' Hg Hp Hs]; rewrite Hg.
  all: eexists; split; [reflexivity|]; split; [reflexivity|];
    split; [cbn [snd answered log app]; reflexivity|].
  all: split; [intros p' h' r' Hin; cbn in Hin; intuition discriminate|].
  all: unfold bubble_events; cbn [answer sources truthy app].
  all: split;
    [intros p' h' r' Hin;
     repeat (rewrite in_app_iff in Hin || cbn [In app] in Hin);
     repeat match type of Hin with
            | context [if ?b then _ else _] => destruct b
            end;
     cbn in Hin; unfold error_print in Hin; intuition discriminate|].
  all: split; [|split; [intros e' He'; simplify_eq; reflexivity
                       |apply (alternates_snoc_turns h true)]].
  - exists [error_print e]. eexists. reflexivity.
  - exists []. eexists. reflexivity.
  - exists [Ev_store_in_long_term_memory prompt (answer r) true]. eexists. reflexivity.
  - exists [Ev_store_in_long_term_memory prompt (answer r) false; error_print e].
    eexists. reflexivity.
Qed.

(** C9 fails as stated: after one answered question the history holds the
    two turns; processing [notes.txt] again returns normally and leaves the
    history empty, so the history is not append-only across an ingestion. *)
Lemma ingestion_resets_history :
  history (st_session_state demo_asked) =
    Some [ {| role := "user"; parts := "Capital?" |};
           {| role := "model"; parts := "Freedonia is a small country." |} ] /\
  fst (process_document demo_backend notes_txt demo_asked) = Ok tt /\
  history (st_session_state
             (snd (process_document demo_backend notes_txt demo_asked))) = Some [].
Proof. vm_compute. repeat split. Qed.

(** ** The theorems at work on the demo backend *)

Lemma chunk_ids_exact_witness :
  log (snd (process_document demo_backend notes_txt fresh_world))
    = log fresh_world ++ demo_ingestion_events /\
  In (Ev_extract_text "/tmp/tmpk3v9.txt" (Ok demo_chunks)) demo_ingestion_events /\
  exists ids,
    length ids = length demo_chunks /\
    (forall i, i < length demo_chunks ->
               ids !! i = Some (name notes_txt +:+ "_chunk_" +:+ pretty i)) /\
    NoDup ids /\
    (forall d m i r,
       In (Ev_add d m i r) demo_ingestion_events ->
       d = map content demo_chunks /\
       m = map (fun c => Some (page_number c)) demo_chunks /\
       i = ids) /\
    (demo_chunks <> [] ->
     exists returned,
       In (Ev_add (map content demo_chunks)
             (map (fun c => Some (page_number c)) demo_chunks) ids returned)
          demo_ingestion_events).
Proof.
  assert (H1 : log (snd (process_document demo_backend notes_txt fresh_world))
               = log fresh_world ++ demo_ingestion_events)
    by (vm_compute; reflexivity).
  assert (H2 : In (Ev_extract_text "/tmp/tmpk3v9.txt" (Ok demo_chunks))
                  demo_ingestion_events)
    by (vm_compute; tauto).
  exact (conj H1 (conj H2
           (chunk_ids_exact demo_backend notes_txt fresh_world
              demo_ingestion_events "/tmp/tmpk3v9.txt" demo_chunks H1 H2))).
Defined.

Lemma no_text_reported_witness :
  log (snd (process_document demo_backend empty_txt fresh_world))
    = log fresh_world ++ demo_empty_events /\
  In (Ev_extract_text "/tmp/tmpk3v9.txt" (Ok [])) demo_empty_events /\
  fst (process_document demo_backend empty_txt fresh_world) = Ok tt /\
  In (Ev_st_error
        "File processed, but no text was extracted. Please try another file.")
     demo_empty_events /\
  (forall msg, In (Ev_st_error msg) demo_empty_events ->
     msg = "File processed, but no text was extracted. Please try another file.") /\
  (forall e,
     "File processed, but no text was extracted. Please try another file."
     <> "An error occurred during processing: " +:+ str e) /\
  (forall e, ~ In (Ev_print ("Error: " +:+ str e)) demo_empty_events) /\
  (forall d m i r, ~ In (Ev_add d m i r) demo_empty_events) /\
  (forall msg, ~ In (Ev_st_success msg) demo_empty_events) /\
  file_processed
    (st_session_state (snd (process_document demo_backend empty_txt fresh_world)))
    = file_processed (st_session_state fresh_world) /\
  file_name
    (st_session_state (snd (process_document demo_backend empty_txt fresh_world)))
    = file_name (st_session_state fresh_world).
Proof.
  assert (H1 : log (snd (process_document demo_backend empty_txt fresh_world))
               = log fresh_world ++ demo_empty_events)
    by (vm_compute; reflexivity).
  assert (H2 : In (Ev_extract_text "/tmp/tmpk3v9.txt" (Ok [])) demo_empty_events)
    by (vm_compute; tauto).
  exact (conj H1 (conj H2
           (no_text_reported demo_backend empty_txt fresh_world
              demo_empty_events "/tmp/tmpk3v9.txt" H1 H2))).
Defined.

Lemma answer_failure_degrades_witness :
  file_processed (st_session_state demo_ingested) = Some true /\
  history (st_session_state demo_ingested) = Some [] /\
  be_get_conversational_answer demo_backend_model_down "Capital?" []
    (doc_collection demo_ingested) (chat_collection demo_ingested)
    = Raise (Exception "ModelError") /\
  fst (chat_input demo_backend_model_down "Capital?" demo_ingested) = Ok tt /\
  String.prefix "Error"
    ("Error generating response: " +:+ str (Exception "ModelError")) = true /\
  log (snd (chat_input demo_backend_model_down "Capital?" demo_ingested)) =
    log demo_ingested
      ++ [Ev_st_chat_message "user";
          Ev_st_markdown "Capital?";
          Ev_get_conversational_answer "Capital?" []
            (Raise (Exception "ModelError"));
          Ev_print ("Error in get_conversational_answer: "
                    +:+ str (Exception "ModelError"));
          Ev_st_chat_message "model";
          Ev_st_markdown ("Error generating response: "
                          +:+ str (Exception "ModelError"))] /\
  history (st_session_state
             (snd (chat_input demo_backend_model_down "Capital?" demo_ingested))) =
    Some ([] ++ [ {| role := "user"; parts := "Capital?" |};
                  {| role := "model";
                     parts := "Error generating response: "
                              +:+ str (Exception "ModelError") |} ]).
Proof.
  assert (H1 : file_processed (st_session_state demo_ingested) = Some true)
    by (vm_compute; reflexivity).
  assert (H2 : history (st_session_state demo_ingested) = Some [])
    by (vm_compute; reflexivity).
  assert (H3 : be_get_conversational_answer demo_backend_model_down "Capital?" []
                 (doc_collection demo_ingested) (chat_collection demo_ingested)
               = Raise (Exception "ModelError"))
    by (vm_compute; reflexivity).
  exact (conj H1 (conj H2 (conj H3
           (answer_failure_degrades demo_backend_model_down "Capital?"
              demo_ingested [] (Exception "ModelError") H1 H2 H3)))).
Defined.

Lemma memory_written_iff_not_error_witness :
  file_processed (st_session_state demo_ingested) = Some true /\
  history (st_session_state demo_ingested) = Some [] /\
  be_get_conversational_answer demo_backend "Capital?" []
    (doc_collection demo_ingested) (chat_collection demo_ingested)
    = Ok {| answer := "Freedonia is a small country.";
            sources := [ {| page := 1 |} ] |} /\
  exists evs,
    log (snd (chat_input demo_backend "Capital?" demo_ingested))
      = log demo_ingested ++ evs /\
    ((exists returned,
        In (Ev_store_in_long_term_memory "Capital?"
              "Freedonia is a small country." returned) evs)
     <-> String.prefix "Error" "Freedonia is a small country." = false) /\
    (forall question ans returned,
       In (Ev_store_in_long_term_memory question ans returned) evs ->
       question = "Capital?" /\ ans = "Freedonia is a small country.") /\
    (String.prefix "Error" "Freedonia is a small country." = true ->
     chat_collection (snd (chat_input demo_backend "Capital?" demo_ingested))
       = chat_collection demo_ingested).
Proof.
  assert (H1 : file_processed (st_session_state demo_ingested) = Some true)
    by (vm_compute; reflexivity).
  assert (H2 : history (st_session_state demo_ingested) = Some [])
    by (vm_compute; reflexivity).
  assert (H3 : be_get_conversational_answer demo_backend "Capital?" []
                 (doc_collection demo_ingested) (chat_collection demo_ingested)
               = Ok {| answer := "Freedonia is a small country.";
                       sources := [ {| page := 1 |} ] |})
    by (vm_compute; reflexivity).
  exact (conj H1 (conj H2 (conj H3
           (memory_written_iff_not_error demo_backend "Capital?" demo_ingested []
              {| answer := "Freedonia is a small country.";
                 sources := [ {| page := 1 |} ] |} H1 H2 H3)))).
Defined.


Lemma answers_only_after_ingestion_witness :
  chat_input demo_backend "Capital?" (set_session initialised fresh_world) =
    (Ok tt, add_log (Ev_st_warning "Please upload and process a document first.")
              (set_session initialised fresh_world)) /\
  exists evs,
    log (snd (script demo_backend (type_prompt "Capital?")
                (session demo_backend [] (initial_world [] [] ∅)))) =
      log (session demo_backend [] (initial_world [] [] ∅)) ++ evs /\
    In (Ev_st_warning "Please upload and process a document first.") evs /\
    forall e, In e evs -> is_backend_call e = false.
Proof.
  destruct (answers_only_after_ingestion demo_backend [] [] ∅ [] notes_txt
              "Capital?" (set_session initialised fresh_world)
              (type_prompt "Capital?"))
    as (_ & Hwarn & _ & _ & _ & Hprompt).
  split.
  - apply Hwarn. vm_compute. reflexivity.
  - apply Hprompt.
    + intros d m ids Hin. vm_compute in Hin. destruct Hin.
    + vm_compute. reflexivity.
    + vm_compute. reflexivity.
    + discriminate.
Defined.

Lemma history_appends_alternating_turns_witness :
  file_processed (st_session_state demo_ingested) = Some true /\
  history (st_session_state demo_ingested) = Some [] /\
  (exists ans,
     history (st_session_state
                (snd (chat_input demo_backend "Capital?" demo_ingested))) =
       Some ([] ++ [ {| role := "user"; parts := "Capital?" |};
                     {| role := "model"; parts := ans |} ])) /\
  (exists evs,
     log (snd (process_document demo_backend notes_txt demo_ingested))
       = log demo_ingested ++ evs /\
     (In (Ev_delete ChatC true) evs ->
      history (st_session_state
                 (snd (process_document demo_backend notes_txt demo_ingested)))
        = Some []) /\
     (~ In (Ev_delete ChatC true) evs ->
      history (st_session_state
                 (snd (process_document demo_backend notes_txt demo_ingested)))
        = Some [])) /\
  alternates true
    (default [] (history (st_session_state
                            (session demo_backend
                               [click_process notes_txt; type_prompt "Capital?"]
                               (initial_world [] [] ∅)))))
    = true.
Proof.
  assert (H1 : file_processed (st_session_state demo_ingested) = Some true)
    by (vm_compute; reflexivity).
  assert (H2 : history (st_session_state demo_ingested) = Some [])
    by (vm_compute; reflexivity).
  destruct (history_appends_alternating_turns demo_backend "Capital?" notes_txt
              demo_ingested [] [] [] ∅
              [click_process notes_txt; type_prompt "Capital?"] H1 H2)
    as ((ans & _ & _ & _ & _ & Hhist & _) & Hreset & Halt).
  exact (conj H1 (conj H2 (conj (ex_intro _ ans Hhist) (conj Hreset Halt)))).
Defined.

(** * More of the script *)

(** ** A run of the script as a whole *)



Lemma idle_run B i w :
  ingests i = false -> asks i = false ->
  snd (script B i w) = after_page (set_session initialised w).
Proof.
  intros Hi Ha. rewrite script_run. cbn [snd].
  unfold after_chat, after_sidebar, ingests, asks in *.
  destruct (w_uploaded_file i); [rewrite Hi|];
    (destruct (w_chat_input i); [rewrite Ha|]); reflexivity.
Qed.


(** X3: what such a run renders, for a session state whose keys have
    values: the header, which names the file when one is processed and is
    followed by the hint when none is; then the stored history, one chat
    bubble per turn, in order, each with the role and the text of its turn.
    No caption with sources is rendered for a stored turn. *)
Theorem idle_run_replays_history B i w h b n :
  ingests i = false ->
  asks i = false ->
  history (st_session_state w) = Some h ->
  file_processed (st_session_state w) = Some b ->
  file_name (st_session_state w) = Some n ->
  log (snd (script B i w)) =
    log w
      ++ (if b then [Ev_st_header ("Chat with: " +:+ n)]
          else [Ev_st_header "Chat";
                Ev_st_info
                  "Please upload and process a document in the sidebar to begin."])
      ++ flat_map (fun m => [Ev_st_chat_message (role m); Ev_st_markdown (parts m)]) h /\
  forall evs s, log (snd (script B i w)) = log w ++ evs -> ~ In (Ev_st_caption s) evs.
Proof.
  intros Hi Ha Hh Hb Hn. rewrite (idle_run B i w Hi Ha).
  destruct w as [[oh ofp ofn] docs chats fs l]. cbn in Hh, Hb, Hn. subst.
  assert (log (after_page (set_session initialised
            (Build_world (Build_session_state (Some h) (Some b) (Some n))
               docs chats fs l)))
          = l ++ (if b then [Ev_st_header ("Chat with: " +:+ n)]
                  else [Ev_st_header "Chat";
                        Ev_st_info
                          "Please upload and process a document in the sidebar to begin."])
              ++ flat_map (fun m => [Ev_st_chat_message (role m);
                                     Ev_st_markdown (parts m)]) h) as Hlog.
  { cbn. unfold page_events. cbn. reflexivity. }
  split; [exact Hlog|].
  intros evs s. rewrite Hlog. cbn [log]. intros Heq Hin.
  apply app_inv_head in Heq. subst evs.
  apply in_app_or in Hin as [Hin|Hin].
  - destruct b; cbn in Hin; intuition discriminate.
  - apply in_flat_map in Hin as (m & _ & Hm). cbn in Hm. intuition discriminate.
Qed.

(** ** How a run of the ingestion handler ends *)

(** X4: when a call in the [try] block of the ingestion handler raises (a
    delete, the extraction or the add), the handler still returns normally;
    it shows "An error occurred during processing: " with the text of the
    exception and prints it, shows no other error and no success, and
    leaves [file_processed] and [file_name] as they were. *)
Theorem ingestion_failure_reported B up w evs :
  log (snd (process_document B up w)) = log w ++ evs ->
  raised_in evs ->
  fst (process_document B up w) = Ok tt /\
  (exists e,
     In (Ev_st_error ("An error occurred during processing: " +:+ str e)) evs /\
     In (Ev_print ("Error: " +:+ str e)) evs /\
     (forall msg, In (Ev_st_error msg) evs ->
        msg = "An error occurred during processing: " +:+ str e) /\
     (forall filepath e', In (Ev_extract_text filepath (Raise e')) evs -> e' = e)) /\
  (forall msg, ~ In (Ev_st_success msg) evs) /\
  file_processed (st_session_state (snd (process_document B up w)))
    = file_processed (st_session_state w) /\
  file_name (st_session_state (snd (process_document B up w)))
    = file_name (st_session_state w).
Proof.
  intros Hlog Hr.
  destruct (process_document_events B up w evs Hlog)
    as (s & docs & chats & fs & evs0 & Hing & -> & ->).
  split; [reflexivity|]. cbn [snd finished st_session_state].
  destruct Hing as [e Hd1|e Hd1 Hd2|e fs' Hd1 Hd2 Hx|fs' Hd1 Hd2 Hx
                   |chunks fs' e Hd1 Hd2 Hx Hne Ha
                   |chunks fs' docs' Hd1 Hd2 Hx Hne Ha Hadd];
    try (exfalso;
         destruct Hr as [H|[H|[(p & x & H)|(d & m & i & H)]]]; log_cases H; fail).
  all: split; [exists e; repeat split; [log_member|log_member| |]|].
  all: try (intros msg Hm; log_cases Hm; simplify_eq; reflexivity).
  all: try (intros p x Hraise; log_cases Hraise; simplify_eq; reflexivity).
  all: split; [intros msg Hm; log_cases Hm|split; reflexivity].
Qed.

(** X5: [st.success] is shown exactly in the runs whose add returned; such
    a run leaves the history empty, [file_processed] true and [file_name]
    the name of the upload, names the file and the number of chunks in the
    message and shows no error.  A run whose add did not return leaves
    [file_processed] and [file_name] as they were. *)
Theorem success_iff_added B up w :
  exists evs,
    log (snd (process_document B up w)) = log w ++ evs /\
    ((exists msg, In (Ev_st_success msg) evs) <->
     (exists d m i, In (Ev_add d m i true) evs)) /\
    (forall d m i,
       In (Ev_add d m i true) evs ->
       st_session_state (snd (process_document B up w)) =
         {| history := Some []; file_processed := Some true;
            file_name := Some (name up) |} /\
       In (Ev_st_success ("Processed '" +:+ name up +:+ "' ("
                          +:+ pretty (length d) +:+ " chunks added). Ready to chat!"))
          evs /\
       forall msg, ~ In (Ev_st_error msg) evs) /\
    ((forall d m i, ~ In (Ev_add d m i true) evs) ->
     file_processed (st_session_state (snd (process_document B up w)))
       = file_processed (st_session_state w) /\
     file_name (st_session_state (snd (process_document B up w)))
       = file_name (st_session_state w)).
Proof.
  destruct (process_document_outcome B up w)
    as (s & docs & chats & fs & evs & Hing & ->).
  eexists; split; [reflexivity|]. cbn [snd finished st_session_state].
  destruct Hing as [e Hd1|e Hd1 Hd2|e fs' Hd1 Hd2 Hx|fs' Hd1 Hd2 Hx
                   |chunks fs' e Hd1 Hd2 Hx Hne Ha
                   |chunks fs' docs' Hd1 Hd2 Hx Hne Ha Hadd].
  1-5: split; [split; [intros (msg & H)|intros (d & m & i & H)]; log_cases H|];
    (split; [intros d m i H; log_cases H|intros _; split; reflexivity]).
  split.
  { split; intros _.
    - exists (map content chunks), (map (fun c => Some (page_number c)) chunks),
        (map (fun i => name up +:+ "_chunk_" +:+ pretty i) (seq 0 (length chunks))).
      log_member.
    - exists ("Processed '" +:+ name up +:+ "' (" +:+ pretty (length chunks)
              +:+ " chunks added). Ready to chat!").
      log_member. }
  split.
  - intros d m i H. log_cases H. simplify_eq.
    split; [reflexivity|]. rewrite length_map. split; [log_member|].
    intros msg Hm. log_cases Hm.
  - intros Hno. exfalso.
    apply (Hno (map content chunks) (map (fun c => Some (page_number c)) chunks)
             (map (fun i => name up +:+ "_chunk_" +:+ pretty i)
                  (seq 0 (length chunks)))).
    log_member.
Qed.

(** X6: every run of the ingestion handler shows exactly one message about
    how it ended: the success, the error that no text was extracted, or the
    error with the exception. *)
Theorem one_outcome_message B up w :
  exists evs,
    log (snd (process_document B up w)) = log w ++ evs /\
    length (List.filter is_outcome_message evs) = 1.
Proof.
  destruct (process_document_outcome B up w)
    as (s & docs & chats & fs & evs & Hing & ->).
  eexists; split; [reflexivity|]. unfold removal_events.
  destruct Hing as [e Hd1|e Hd1 Hd2|e fs' Hd1 Hd2 Hx|fs' Hd1 Hd2 Hx
                   |chunks fs' e Hd1 Hd2 Hx Hne Ha
                   |chunks fs' docs' Hd1 Hd2 Hx Hne Ha Hadd]; destruct (bool_decide _); reflexivity.
Qed.




(** ** What each handler leaves alone *)

(** X9: the ingestion handler never calls the model or the memory writer,
    and never renders a chat bubble. *)
Theorem ingestion_calls_no_model B up w :
  exists evs,
    log (snd (process_document B up w)) = log w ++ evs /\
    (forall p h r, ~ In (Ev_get_conversational_answer p h r) evs) /\
    (forall q a b, ~ In (Ev_store_in_long_term_memory q a b) evs) /\
    (forall r, ~ In (Ev_st_chat_message r) evs) /\
    (forall s, ~ In (Ev_st_markdown s) evs).
Proof.
  destruct (process_document_outcome B up w)
    as (s & docs & chats & fs & evs & Hing & ->).
  eexists; split; [reflexivity|].
  destruct Hing as [e Hd1|e Hd1 Hd2|e fs' Hd1 Hd2 Hx|fs' Hd1 Hd2 Hx
                   |chunks fs' e Hd1 Hd2 Hx Hne Ha
                   |chunks fs' docs' Hd1 Hd2 Hx Hne Ha Hadd]; repeat split; intros; intros H; log_cases H.
Qed.

(** X11: the extraction is called on the path of the temporary file that
    the run created, a path that ends with the extension of the uploaded
    name, and at that time the file holds the uploaded bytes. *)
Theorem extraction_reads_upload B up w evs filepath r :
  log (snd (process_document B up w)) = log w ++ evs ->
  In (Ev_extract_text filepath r) evs ->
  In (Ev_NamedTemporaryFile filepath) evs /\
  ends_with (splitext_ext (name up)) filepath /\
  (<[filepath := getvalue up]> (files w)) !! filepath = Some (getvalue up) /\
  r = fst (be_extract_text B filepath (<[filepath := getvalue up]> (files w))).
Proof.
  intros Hlog Hin.
  destruct (process_document_events B up w evs Hlog)
    as (s & docs & chats & fs & evs0 & Hing & _ & ->).
  assert (ends_with (splitext_ext (name up)) (tmp_path B up w)) as Hends
    by (eexists; reflexivity).
  destruct Hing as [e Hd1|e Hd1 Hd2|e fs' Hd1 Hd2 Hx|fs' Hd1 Hd2 Hx
                   |chunks fs' e Hd1 Hd2 Hx Hne Ha
                   |chunks fs' docs' Hd1 Hd2 Hx Hne Ha Hadd]; log_cases Hin; simplify_eq;
    (split; [left; reflexivity|]); (split; [exact Hends|]);
    (split; [apply lookup_insert_eq|]);
    match goal with H : be_extract_text _ _ _ = _ |- _ => rewrite H end;
    reflexivity.
Qed.

(** X12: when the name [tempfile] picks is not in use and the extraction
    leaves the files alone, the run leaves the disk exactly as it found
    it. *)
Theorem disk_restored B up w evs :
  log (snd (process_document B up w)) = log w ++ evs ->
  (forall filepath, In (Ev_NamedTemporaryFile filepath) evs ->
                    files w !! filepath = None) ->
  (forall filepath fs, snd (be_extract_text B filepath fs) = fs) ->
  files (snd (process_document B up w)) = files w.
Proof.
  intros Hlog Hfresh Hpure.
  destruct (process_document_events B up w evs Hlog)
    as (s & docs & chats & fs & evs0 & Hing & -> & ->).
  cbn [snd finished files].
  specialize (Hfresh (tmp_path B up w) (or_introl eq_refl)).
  destruct Hing as [e Hd1|e Hd1 Hd2|e fs' Hd1 Hd2 Hx|fs' Hd1 Hd2 Hx
                   |chunks fs' e Hd1 Hd2 Hx Hne Ha
                   |chunks fs' docs' Hd1 Hd2 Hx Hne Ha Hadd];
    try match goal with H : be_extract_text _ ?p ?f = (_, ?fs') |- _ =>
      let Hs := fresh in
      pose proof (Hpure p f) as Hs; rewrite H in Hs; cbn in Hs; subst fs' end;
    apply delete_insert_id; exact Hfresh.
Qed.

(** The chat handler in any world: what it leaves alone. *)
Lemma chat_input_frame B prompt w :
  doc_collection (snd (chat_input B prompt w)) = doc_collection w /\
  files (snd (chat_input B prompt w)) = files w /\
  file_processed (st_session_state (snd (chat_input B prompt w)))
    = file_processed (st_session_state w) /\
  file_name (st_session_state (snd (chat_input B prompt w)))
    = file_name (st_session_state w).
Proof.
  destruct (file_processed (st_session_state w)) as [[]|] eqn:Hp.
  - destruct (history (st_session_state w)) as [h|] eqn:Hh.
    + destruct (chat_input_outcome B prompt w h Hp Hh) as (r & c & evs & _ & ->).
      cbn. rewrite Hp. repeat split.
    + destruct w as [[oh ofp ofn] docs chats fs l]. cbn in Hp, Hh. subst.
      repeat split.
  - rewrite chat_input_not_processed by assumption. cbn. rewrite Hp. repeat split.
  - destruct w as [[oh ofp ofn] docs chats fs l]. cbn in Hp. subst. repeat split.
Qed.

(** The events of the [try] block of the chat handler are calls of the
    model and of the memory writer, and the print of the [except] branch. *)
Lemma asking_events B prompt h docs chats r chats' evs e :
  asking B prompt h docs chats r chats' evs ->
  In e evs ->
  (exists r', e = Ev_get_conversational_answer prompt h r') \/
  (exists a b, e = Ev_store_in_long_term_memory prompt a b) \/
  (exists s, e = Ev_print s).
Proof.
  intros Hask Hin. unfold error_print in *.
  destruct Hask; cbn in Hin; intuition (subst; eauto).
Qed.

Lemma bubble_events_shape r e :
  In e (bubble_events r) ->
  (exists s, e = Ev_st_chat_message s) \/ (exists s, e = Ev_st_markdown s) \/
  (exists s, e = Ev_st_caption s).
Proof.
  unfold bubble_events. intros Hin.
  destruct (truthy _); cbn in Hin; intuition (subst; eauto).
Qed.

(** The events of a processed question, sorted by kind. *)
Lemma answered_events B prompt h docs chats r chats' evs e :
  asking B prompt h docs chats r chats' evs ->
  In e ([Ev_st_chat_message "user"; Ev_st_markdown prompt] ++ evs ++ bubble_events r) ->
  (exists r', e = Ev_get_conversational_answer prompt h r') \/
  (exists a b, e = Ev_store_in_long_term_memory prompt a b) \/
  (exists s, e = Ev_print s) \/
  (exists s, e = Ev_st_chat_message s) \/ (exists s, e = Ev_st_markdown s) \/
  (exists s, e = Ev_st_caption s).
Proof.
  intros Hask Hin. rewrite !in_app_iff in Hin. destruct Hin as [Hin|[Hin|Hin]].
  - cbn in Hin. intuition (subst; eauto 10).
  - destruct (asking_events _ _ _ _ _ _ _ _ _ Hask Hin) as [?|[?|?]]; auto.
  - destruct (bubble_events_shape _ _ Hin) as [?|[?|?]]; auto 10.
Qed.

(** The events of the chat handler in any world. *)
Lemma chat_input_events B prompt w :
  exists evs,
    log (snd (chat_input B prompt w)) = log w ++ evs /\
    forall e, In e evs ->
      (exists h r, e = Ev_get_conversational_answer prompt h r) \/
      (exists a b, e = Ev_store_in_long_term_memory prompt a b) \/
      (exists s, e = Ev_print s) \/
      (exists s, e = Ev_st_chat_message s) \/ (exists s, e = Ev_st_markdown s) \/
      (exists s, e = Ev_st_caption s) \/ (exists s, e = Ev_st_warning s).
Proof.
  destruct (file_processed (st_session_state w)) as [[]|] eqn:Hp.
  - destruct (history (st_session_state w)) as [h|] eqn:Hh.
    + destruct (chat_input_outcome B prompt w h Hp Hh) as (r & c & evs & Hask & ->).
      eexists; split; [reflexivity|]. intros e Hin.
      destruct (answered_events _ _ _ _ _ _ _ _ _ Hask Hin)
        as [[r' ->]|[?|[?|[?|[?|?]]]]]; eauto 10.
    + destruct w as [[oh ofp ofn] docs chats fs l]. cbn in Hp, Hh. subst.
      exists [Ev_st_chat_message "user"; Ev_st_markdown prompt].
      split; [cbn; rewrite <- app_assoc; reflexivity|].
      intros e Hin. cbn in Hin. intuition (subst; eauto 10).
  - rewrite chat_input_not_processed by assumption.
    eexists; split; [reflexivity|]. intros e Hin. cbn in Hin.
    intuition (subst; eauto 10).
  - destruct w as [[oh ofp ofn] docs chats fs l]. cbn in Hp. subst.
    exists []. split; [cbn; rewrite app_nil_r; reflexivity|]. intros e [].
Qed.

(** X10: the chat handler, in whatever state it is run, leaves the document
    collection, the files, [file_processed] and [file_name] as they were;
    it calls no delete, no add and no extraction and creates no temporary
    file; the model and the memory writer are only ever called with the
    prompt of this run. *)
Theorem chat_leaves_documents_alone B prompt w :
  doc_collection (snd (chat_input B prompt w)) = doc_collection w /\
  files (snd (chat_input B prompt w)) = files w /\
  file_processed (st_session_state (snd (chat_input B prompt w)))
    = file_processed (st_session_state w) /\
  file_name (st_session_state (snd (chat_input B prompt w)))
    = file_name (st_session_state w) /\
  exists evs,
    log (snd (chat_input B prompt w)) = log w ++ evs /\
    (forall c b, ~ In (Ev_delete c b) evs) /\
    (forall d m i b, ~ In (Ev_add d m i b) evs) /\
    (forall p r, ~ In (Ev_extract_text p r) evs) /\
    (forall p, ~ In (Ev_NamedTemporaryFile p) evs) /\
    (forall p h r, In (Ev_get_conversational_answer p h r) evs -> p = prompt) /\
    (forall q a b, In (Ev_store_in_long_term_memory q a b) evs -> q = prompt).
Proof.
  destruct (chat_input_frame B prompt w) as (Hd & Hf & Hp & Hn).
  do 4 (split; [assumption|]).
  destruct (chat_input_events B prompt w) as (evs & Hlog & Hev).
  exists evs. split; [exact Hlog|].
  repeat split; intros; try intros Hin;
    match goal with H : In _ evs |- _ =>
      destruct (Hev _ H) as [(?&?&?)|[(?&?&?)|[(?&?)|[(?&?)|[(?&?)|[(?&?)|(?&?)]]]]]]
    end; congruence.
Qed.

(** X13: when the model has answered and the memory write, if there is
    one, returns, the answer is rendered as it came, and the caption with
    the sources is rendered exactly when there is at least one source; it
    then lists "Page " and the page of every source, in order, separated by
    ", ", after "Sources: ". *)
Theorem caption_iff_sources B prompt w h r :
  file_processed (st_session_state w) = Some true ->
  history (st_session_state w) = Some h ->
  be_get_conversational_answer B prompt h (doc_collection w) (chat_collection w)
    = Ok r ->
  (String.prefix "Error" (answer r) = false ->
   fst (be_store_in_long_term_memory B prompt (answer r) (chat_collection w))
     = Ok tt) ->
  exists evs,
    log (snd (chat_input B prompt w)) = log w ++ evs /\
    In (Ev_st_markdown (answer r)) evs /\
    ((exists s, In (Ev_st_caption s) evs) <-> sources r <> []) /\
    (forall s, In (Ev_st_caption s) evs ->
       s = "Sources: " +:+
           String.concat ", "
             (map (fun x => "Page " +:+ pretty (page x)) (sources r))).
Proof.
  intros Hfp Hh Hg Hstore.
  destruct (chat_input_outcome B prompt w h Hfp Hh)
    as (r' & chats' & evs & Hask & ->).
  eexists; split; [reflexivity|].
  assert (answer r' = answer r /\ sources r' = sources r) as [Ha Hs].
  { destruct Hask as [e Hg'|r0 Hg' Hp|r0 c' Hg' Hp Hs|r0 e c' Hg' Hp Hs];
      rewrite Hg in Hg'; simplify_eq; try (split; reflexivity).
    specialize (Hstore Hp). rewrite Hs in Hstore. discriminate. }
  assert (forall s, In (Ev_st_caption s)
                      ([Ev_st_chat_message "user"; Ev_st_markdown prompt]
                         ++ evs ++ bubble_events r')
                    <-> In (Ev_st_caption s) (bubble_events r')) as Hcap.
  { intros s. rewrite !in_app_iff. split; [|auto].
    intros [Hin|[Hin|Hin]]; [cbn in Hin; intuition discriminate| |exact Hin].
    destruct (asking_events _ _ _ _ _ _ _ _ _ Hask Hin) as [(?&?)|[(?&?&?)|(?&?)]];
      discriminate. }
  split; [|split].
  - rewrite !in_app_iff. right. right. unfold bubble_events. rewrite Ha.
    cbn. tauto.
  - setoid_rewrite Hcap. unfold bubble_events. rewrite Hs.
    destruct (sources r) as [|x xs]; cbn.
    + split; [intros (s & Hin); intuition discriminate|congruence].
    + split; [discriminate|]. intros _. eexists. right. right. left. reflexivity.
  - intros s Hin. apply Hcap in Hin. unfold bubble_events in Hin. rewrite Hs in Hin.
    destruct (sources r) as [|x xs]; cbn [truthy app In] in Hin.
    + destruct Hin as [?|[?|[]]]; discriminate.
    + destruct Hin as [?|[?|[Hc|[]]]]; try discriminate.
      injection Hc as <-. reflexivity.
Qed.

(** X14: the text of a failed answer stays in the conversation: when the
    model raises on one question, the next question hands the model a
    history that ends with the failed question and the error text as the
    model's turn. *)
Theorem error_turn_reaches_model B first second w h e :
  file_processed (st_session_state w) = Some true ->
  history (st_session_state w) = Some h ->
  be_get_conversational_answer B first h (doc_collection w) (chat_collection w)
    = Raise e ->
  exists evs r,
    log (snd (chat_input B second (snd (chat_input B first w))))
      = log (snd (chat_input B first w)) ++ evs /\
    In (Ev_get_conversational_answer second
          (h ++ [ {| role := "user"; parts := first |};
                  {| role := "model";
                     parts := "Error generating response: " +:+ str e |} ]) r)
       evs /\
    forall p' h' r',
      In (Ev_get_conversational_answer p' h' r') evs ->
      h' = h ++ [ {| role := "user"; parts := first |};
                  {| role := "model";
                     parts := "Error generating response: " +:+ str e |} ].
Proof.
  intros Hfp Hh Hg.
  destruct (chat_input_outcome B first w h Hfp Hh)
    as (r1 & chats1 & evs1 & Hask1 & ->).
  assert (r1 = {| answer := error_answer e; sources := [] |}) as ->.
  { destruct Hask1; rewrite Hg in *; simplify_eq. reflexivity. }
  cbn [snd].
  edestruct (chat_input_outcome B second
               (answered w first h {| answer := error_answer e; sources := [] |}
                  chats1 evs1))
    as (r2 & chats2 & evs2 & Hask2 & ->).
  { cbn. exact Hfp. }
  { cbn. reflexivity. }
  cbn [snd answered log doc_collection chat_collection] in *.
  exists ([Ev_st_chat_message "user"; Ev_st_markdown second] ++ evs2 ++ bubble_events r2),
    (be_get_conversational_answer B second
       (h ++ [user_turn first; model_turn (error_answer e)])
       (doc_collection w) chats1).
  split; [reflexivity|]. split.
  - rewrite !in_app_iff. right. left.
    destruct Hask2 as [e2 Hg2|r0 Hg2 Hp|r0 c' Hg2 Hp Hs|r0 e2 c' Hg2 Hp Hs];
      rewrite Hg2; cbn; left; reflexivity.
  - intros p' h' r' Hin.
    destruct (answered_events _ _ _ _ _ _ _ _ _ Hask2 Hin)
      as [(?&?)|[(?&?&?)|[(?&?)|[(?&?)|[(?&?)|(?&?)]]]]]; simplify_eq.
    reflexivity.
Qed.

(** ** Along a session *)

Lemma process_document_keeps_flag B up w :
  file_processed (st_session_state w) = Some true ->
  file_processed (st_session_state (snd (process_document B up w))) = Some true.
Proof.
  intros Hp.
  destruct (process_document_outcome B up w)
    as (s & docs & chats & fs & evs & Hing & ->).
  cbn [snd finished st_session_state]. destruct Hing; cbn; auto.
Qed.

Lemma script_keeps_flag B i w :
  file_processed (st_session_state w) = Some true ->
  file_processed (st_session_state (snd (script B i w))) = Some true.
Proof.
  intros Hp. rewrite script_run. cbn [snd].
  assert (file_processed
            (st_session_state (after_page (after_sidebar B i (set_session initialised w))))
          = Some true) as H1.
  { cbn [after_page st_session_state]. unfold after_sidebar.
    assert (file_processed (st_session_state (set_session initialised w)) = Some true)
      as H0 by (cbn; rewrite Hp; reflexivity).
    destruct (w_uploaded_file i) as [up|]; [destruct (w_button i)|];
      auto using process_document_keeps_flag. }
  unfold after_chat. destruct (w_chat_input i) as [prompt|]; [|exact H1].
  destruct (truthy_str prompt); [|exact H1].
  destruct (chat_input_frame B prompt
              (after_page (after_sidebar B i (set_session initialised w))))
    as (_ & _ & -> & _).
  exact H1.
Qed.

(** X15: nothing in the script takes [file_processed] back: once it is
    true it is true after every later run, whatever the run does (an
    ingestion that fails or finds no text, a question, a plain rerun), and
    so for the rest of the session. *)
Theorem flag_never_cleared B i inputs w :
  file_processed (st_session_state w) = Some true ->
  file_processed (st_session_state (snd (script B i w))) = Some true /\
  file_processed (st_session_state (session B inputs w)) = Some true.
Proof.
  intros Hp. split; [apply script_keeps_flag, Hp|].
  revert w Hp. induction inputs as [|j inputs IH]; intros w Hp; cbn [session];
    [exact Hp|]. apply IH, script_keeps_flag, Hp.
Qed.

Lemma answers_alternate_app l1 l2 :
  answers_alternate (l1 ++ l2) <-> answers_alternate l1 /\ answers_alternate l2.
Proof.
  unfold answers_alternate. setoid_rewrite in_app_iff. firstorder.
Qed.

Lemma answers_alternate_quiet l :
  forallb (fun e => negb (is_answer_call e)) l = true -> answers_alternate l.
Proof.
  rewrite forallb_forall. intros Hq p h r Hin. specialize (Hq _ Hin). discriminate.
Qed.

Lemma inv_model_script B i w :
  session_inv_model w -> session_inv_model (snd (script B i w)).
Proof.
  intros (Hl & Hh). rewrite script_run. cbn [snd].
  pose proof (after_sidebar_ready B i (set_session initialised w)
                (initialised_ready _)) as Hr.
  assert (session_inv_model (set_session initialised w)) as H0.
  { split; [exact Hl|]. destruct w as [[[h|] ofp ofn] docs chats fs l]; exact Hh. }
  assert (session_inv_model (after_sidebar B i (set_session initialised w))) as H1.
  { unfold after_sidebar.
    destruct (w_uploaded_file i) as [up|]; [destruct (w_button i)|]; try exact H0.
    destruct H0 as (Hl0 & Hh0).
    destruct (process_document_outcome B up (set_session initialised w))
      as (s & docs & chats & fs & evs & Hing & ->).
    split; cbn [snd finished log st_session_state].
    - apply answers_alternate_app. split; [exact Hl0|].
      apply answers_alternate_quiet, (ingestion_quiet _ _ _ _ _ _ _ _ Hing).
    - destruct (ingestion_history _ _ _ _ _ _ _ _ Hing) as [-> | ->];
        [exact Hh0|reflexivity]. }
  assert (session_inv_model
            (after_page (after_sidebar B i (set_session initialised w)))) as H2.
  { destruct H1 as (Hl1 & Hh1). split; [|exact Hh1]. cbn [after_page log].
    apply answers_alternate_app. split; [exact Hl1|].
    apply answers_alternate_quiet, quiet_no_answer, page_events_quiet. }
  apply after_page_ready in Hr.
  unfold after_chat. destruct (w_chat_input i) as [prompt|]; [|exact H2].
  destruct (truthy_str prompt); [|exact H2].
  destruct H2 as (Hl2 & Hh2).
  destruct Hr as ([h Hhist] & [[] Hfp] & _).
  - destruct (chat_input_outcome B prompt _ h Hfp Hhist) as (r & c & evs & Hask & ->).
    rewrite Hhist in Hh2. cbn in Hh2.
    split; cbn [snd answered log st_session_state with_history history default].
    + apply answers_alternate_app. split; [exact Hl2|].
      intros p' h' r' Hin.
      destruct (answered_events _ _ _ _ _ _ _ _ _ Hask Hin)
        as [(?&?)|[(?&?&?)|[(?&?)|[(?&?)|[(?&?)|(?&?)]]]]]; simplify_eq.
      exact Hh2.
    + exact (eq_trans (alternates_snoc_turns h true prompt (answer r)) Hh2).
  - rewrite chat_input_not_processed by assumption.
    split; [|exact Hh2]. cbn [snd add_log log].
    apply answers_alternate_app. split; [exact Hl2|].
    apply answers_alternate_quiet. reflexivity.
Qed.

(** X16: along any session that starts with a new session state, every
    history that is handed to [get_conversational_answer] reads user,
    model, user, model, ... and ends on a model turn (or is empty): the
    model never sees the prompt it is asked, nor two turns of one role in a
    row. *)
Theorem model_sees_alternating_history B docs chats fs inputs :
  answers_alternate (log (session B inputs (initial_world docs chats fs))).
Proof.
  assert (forall w, session_inv_model w -> session_inv_model (session B inputs w))
    as Hinv.
  { induction inputs as [|i inputs IH]; intros w Hw; cbn [session]; [exact Hw|].
    apply IH, inv_model_script, Hw. }
  apply Hinv. split; [|reflexivity]. intros p h r [].
Qed.

(** ** The extension of the uploaded name *)

Lemma string_app_assoc (a b c : string) : (a +:+ b) +:+ c = a +:+ (b +:+ c).
Proof.
  induction a as [|x a IH]; [reflexivity|]. exact (f_equal (String x) IH).
Qed.

Lemma string_app_nil_r (a : string) : a +:+ EmptyString = a.
Proof.
  induction a as [|x a IH]; [reflexivity|]. exact (f_equal (String x) IH).
Qed.

Lemma ends_with_trans (a b c : string) :
  ends_with a b -> ends_with b c -> ends_with a c.
Proof.
  intros [r1 ->] [r2 ->]. exists (r2 +:+ r1). symmetry. apply string_app_assoc.
Qed.

Lemma basename_suffix p : ends_with (basename p) p.
Proof.
  induction p as [|c p IH]; cbn [basename]; [exists EmptyString; reflexivity|].
  destruct (has_char "/" p).
  - destruct IH as [r Hr]. exists (String c r). exact (f_equal (String c) Hr).
  - destruct (Ascii.eqb c "/").
    + exists (String c EmptyString). reflexivity.
    + exists EmptyString. reflexivity.
Qed.

Lemma basename_no_slash p : has_char "/" (basename p) = false.
Proof.
  induction p as [|c p IH]; cbn [basename]; [reflexivity|].
  destruct (has_char "/" p) eqn:Hs; [exact IH|].
  destruct (Ascii.eqb c "/") eqn:Hc; [exact Hs|].
  cbn [has_char]. rewrite Ascii.eqb_sym, Hc, Hs. reflexivity.
Qed.

Lemma skip_dots_suffix s : ends_with (skip_dots s) s.
Proof.
  induction s as [|c s IH]; [exists EmptyString; reflexivity|].
  destruct (Ascii.eqb_spec c ".") as [->|Hne].
  - cbn [skip_dots]. destruct IH as [r Hr]. exists (String "." r).
    exact (f_equal (String ".") Hr).
  - exists EmptyString.
    destruct c as [[] [] [] [] [] [] [] []]; try reflexivity. destruct Hne. reflexivity.
Qed.

Lemma skip_dots_no_slash s :
  has_char "/" s = false -> has_char "/" (skip_dots s) = false.
Proof.
  induction s as [|c s IH]; intros Hs; [reflexivity|].
  destruct (Ascii.eqb_spec c ".") as [->|Hne].
  - cbn [skip_dots]. apply IH. cbn in Hs. exact Hs.
  - destruct c as [[] [] [] [] [] [] [] []]; try exact Hs. destruct Hne. reflexivity.
Qed.

Lemma from_last_dot_suffix s : ends_with (from_last_dot s) s.
Proof.
  induction s as [|c s IH]; cbn [from_last_dot]; [exists EmptyString; reflexivity|].
  destruct (has_char "." s).
  - destruct IH as [r Hr]. exists (String c r). exact (f_equal (String c) Hr).
  - destruct (Ascii.eqb c ".").
    + exists EmptyString. reflexivity.
    + exists (String c s). symmetry. apply string_app_nil_r.
Qed.

Lemma from_last_dot_keeps_out x s :
  has_char x s = false -> has_char x (from_last_dot s) = false.
Proof.
  induction s as [|c s IH]; intros Hs; cbn [from_last_dot]; [reflexivity|].
  cbn [has_char] in Hs. apply orb_false_elim in Hs as [Hc Hs].
  destruct (has_char "." s); [exact (IH Hs)|].
  destruct (Ascii.eqb c "."); [|reflexivity].
  cbn [has_char]. rewrite Hc, Hs. reflexivity.
Qed.

Lemma from_last_dot_shape s :
  from_last_dot s = EmptyString \/
  exists rest, from_last_dot s = String "." rest /\ has_char "." rest = false.
Proof.
  induction s as [|c s IH]; cbn [from_last_dot]; [left; reflexivity|].
  destruct (has_char "." s) eqn:Hs; [exact IH|].
  destruct (Ascii.eqb_spec c ".") as [->|_]; [|left; reflexivity].
  right. exists s. split; [reflexivity|exact Hs].
Qed.

(** X17: the suffix given to the temporary file, [os.path.splitext] of the
    uploaded name, is a tail of that name; it is empty or a dot followed by
    characters among which there is no dot and no slash. *)
Theorem extension_shape (p : string) :
  ends_with (splitext_ext p) p /\
  (splitext_ext p = EmptyString \/
   exists rest,
     splitext_ext p = String "." rest /\
     has_char "." rest = false /\ has_char "/" rest = false).
Proof.
  unfold splitext_ext. split.
  - eapply ends_with_trans; [apply from_last_dot_suffix|].
    eapply ends_with_trans; [apply skip_dots_suffix|apply basename_suffix].
  - destruct (from_last_dot_shape (skip_dots (basename p))) as [H|(rest & H & Hd)];
      [left; exact H|right].
    exists rest. split; [exact H|]. split; [exact Hd|].
    pose proof (from_last_dot_keeps_out "/" _
                  (skip_dots_no_slash _ (basename_no_slash p))) as Hs.
    rewrite H in Hs. cbn [has_char] in Hs.
    apply orb_false_elim in Hs as [_ Hs]. exact Hs.
Qed.

Lemma has_char_app x a b : has_char x (a +:+ b) = has_char x a || has_char x b.
Proof.
  induction a as [|c a IH]; [reflexivity|].
  change (has_char x (String c a +:+ b))
    with (Ascii.eqb x c || has_char x (a +:+ b)).
  rewrite IH. cbn [has_char]. apply orb_assoc.
Qed.

Lemma basename_no_dir p : has_char "/" p = false -> basename p = p.
Proof.
  destruct p as [|c p]; [reflexivity|]. cbn [has_char basename]. intros Hs.
  apply orb_false_elim in Hs as [Hc Hs]. rewrite Hs, Ascii.eqb_sym, Hc. reflexivity.
Qed.

Lemma from_last_dot_app s ext :
  has_char "." ext = false ->
  from_last_dot (s +:+ String "." ext) = String "." ext.
Proof.
  intros He. induction s as [|c s IH].
  - change (EmptyString +:+ String "." ext) with (String "." ext).
    cbn [from_last_dot]. rewrite He. reflexivity.
  - change (from_last_dot (String c s +:+ String "." ext))
      with (if has_char "." (s +:+ String "." ext)
            then from_last_dot (s +:+ String "." ext)
            else if Ascii.eqb c "." then String c (s +:+ String "." ext)
                 else EmptyString).
    rewrite has_char_app. cbn [has_char]. rewrite Ascii.eqb_refl.
    cbn [orb]. rewrite orb_true_r. exact IH.
Qed.

(** X18: for an upload named [stem.ext], where the stem has no slash and
    does not start with a dot and [ext] has neither dot nor slash (as in
    [notes.txt] or [a.b.pdf]), the temporary file that the run creates has
    a path that ends with [.ext]. *)
Theorem temp_path_keeps_extension B up w c stem ext :
  name up = String c stem +:+ String "." ext ->
  c <> "."%char ->
  has_char "/" (String c stem) = false ->
  has_char "." ext = false ->
  has_char "/" ext = false ->
  splitext_ext (name up) = String "." ext /\
  exists filepath evs,
    log (snd (process_document B up w))
      = log w ++ Ev_NamedTemporaryFile filepath :: evs /\
    ends_with (String "." ext) filepath.
Proof.
  intros Hn Hc Hs Hd He.
  assert (splitext_ext (name up) = String "." ext) as Hext.
  { unfold splitext_ext. rewrite Hn, basename_no_dir.
    - assert (skip_dots (String c stem +:+ String "." ext)
              = String c stem +:+ String "." ext) as ->.
      { destruct c as [[] [] [] [] [] [] [] []]; try reflexivity.
        destruct Hc. reflexivity. }
      apply from_last_dot_app, Hd.
    - rewrite has_char_app, Hs. cbn [has_char orb]. exact He. }
  split; [exact Hext|].
  destruct (process_document_outcome B up w)
    as (s & docs & chats & fs & evs & Hing & ->).
  eexists _, _. split; [reflexivity|].
  unfold tmp_path. rewrite Hext. eexists. reflexivity.
Qed.

(** ** These theorems at work on the demo backend *)


Lemma idle_run_replays_history_witness :
  ingests rerun = false /\
  asks rerun = false /\
  history (st_session_state demo_asked) =
    Some [ {| role := "user"; parts := "Capital?" |};
           {| role := "model"; parts := "Freedonia is a small country." |} ] /\
  file_processed (st_session_state demo_asked) = Some true /\
  file_name (st_session_state demo_asked) = Some "notes.txt" /\
  log (snd (script demo_backend rerun demo_asked)) =
    log demo_asked
      ++ [Ev_st_header ("Chat with: " +:+ "notes.txt")]
      ++ flat_map (fun m => [Ev_st_chat_message (role m); Ev_st_markdown (parts m)])
           [ {| role := "user"; parts := "Capital?" |};
             {| role := "model"; parts := "Freedonia is a small country." |} ].
Proof.
  assert (H1 : ingests rerun = false) by reflexivity.
  assert (H2 : asks rerun = false) by reflexivity.
  assert (H3 : history (st_session_state demo_asked) =
               Some [ {| role := "user"; parts := "Capital?" |};
                      {| role := "model"; parts := "Freedonia is a small country." |} ])
    by (vm_compute; reflexivity).
  assert (H4 : file_processed (st_session_state demo_asked) = Some true)
    by (vm_compute; reflexivity).
  assert (H5 : file_name (st_session_state demo_asked) = Some "notes.txt")
    by (vm_compute; reflexivity).
  exact (conj H1 (conj H2 (conj H3 (conj H4 (conj H5
           (proj1 (idle_run_replays_history demo_backend rerun demo_asked
                     _ true "notes.txt" H1 H2 H3 H4 H5))))))).
Defined.

Lemma ingestion_failure_reported_witness :
  log (snd (process_document demo_backend_store_down notes_txt fresh_world))
    = log fresh_world ++ demo_store_down_events /\
  raised_in demo_store_down_events /\
  fst (process_document demo_backend_store_down notes_txt fresh_world) = Ok tt /\
  (forall msg, ~ In (Ev_st_success msg) demo_store_down_events) /\
  file_processed
    (st_session_state
       (snd (process_document demo_backend_store_down notes_txt fresh_world)))
    = file_processed (st_session_state fresh_world).
Proof.
  assert (H1 : log (snd (process_document demo_backend_store_down notes_txt
                           fresh_world))
               = log fresh_world ++ demo_store_down_events)
    by (vm_compute; reflexivity).
  assert (H2 : raised_in demo_store_down_events)
    by (left; vm_compute; tauto).
  destruct (ingestion_failure_reported demo_backend_store_down notes_txt
              fresh_world demo_store_down_events H1 H2)
    as (Hok & _ & Hs & Hf & _).
  exact (conj H1 (conj H2 (conj Hok (conj Hs Hf)))).
Defined.



Lemma extraction_reads_upload_witness :
  log (snd (process_document demo_backend notes_txt fresh_world))
    = log fresh_world ++ demo_ingestion_events /\
  In (Ev_extract_text "/tmp/tmpk3v9.txt" (Ok demo_chunks)) demo_ingestion_events /\
  In (Ev_NamedTemporaryFile "/tmp/tmpk3v9.txt") demo_ingestion_events /\
  ends_with (splitext_ext (name notes_txt)) "/tmp/tmpk3v9.txt" /\
  (<["/tmp/tmpk3v9.txt" := getvalue notes_txt]> (files fresh_world))
    !! "/tmp/tmpk3v9.txt" = Some (getvalue notes_txt) /\
  Ok demo_chunks =
    fst (be_extract_text demo_backend "/tmp/tmpk3v9.txt"
           (<["/tmp/tmpk3v9.txt" := getvalue notes_txt]> (files fresh_world))).
Proof.
  assert (H1 : log (snd (process_document demo_backend notes_txt fresh_world))
               = log fresh_world ++ demo_ingestion_events)
    by (vm_compute; reflexivity).
  assert (H2 : In (Ev_extract_text "/tmp/tmpk3v9.txt" (Ok demo_chunks))
                  demo_ingestion_events)
    by (vm_compute; tauto).
  exact (conj H1 (conj H2
           (extraction_reads_upload demo_backend notes_txt fresh_world
              demo_ingestion_events "/tmp/tmpk3v9.txt" (Ok demo_chunks) H1 H2))).
Defined.

Lemma disk_restored_witness :
  log (snd (process_document demo_backend notes_txt fresh_world))
    = log fresh_world ++ demo_ingestion_events /\
  (forall filepath, In (Ev_NamedTemporaryFile filepath) demo_ingestion_events ->
                    files fresh_world !! filepath = None) /\
  (forall filepath fs, snd (be_extract_text demo_backend filepath fs) = fs) /\
  files (snd (process_document demo_backend notes_txt fresh_world))
    = files fresh_world.
Proof.
  assert (H1 : log (snd (process_document demo_backend notes_txt fresh_world))
               = log fresh_world ++ demo_ingestion_events)
    by (vm_compute; reflexivity).
  assert (H2 : forall filepath,
             In (Ev_NamedTemporaryFile filepath) demo_ingestion_events ->
             files fresh_world !! filepath = None)
    by (intros filepath _; apply lookup_empty).
  assert (H3 : forall filepath fs,
             snd (be_extract_text demo_backend filepath fs) = fs)
    by (intros filepath fs; cbn; destruct (fs !! filepath) as [[|]|]; reflexivity).
  exact (conj H1 (conj H2 (conj H3
           (disk_restored demo_backend notes_txt fresh_world
              demo_ingestion_events H1 H2 H3)))).
Defined.

Lemma caption_iff_sources_witness :
  file_processed (st_session_state demo_ingested) = Some true /\
  history (st_session_state demo_ingested) = Some [] /\
  be_get_conversational_answer demo_backend "Capital?" []
    (doc_collection demo_ingested) (chat_collection demo_ingested)
    = Ok {| answer := "Freedonia is a small country.";
            sources := [ {| page := 1 |} ] |} /\
  exists evs,
    log (snd (chat_input demo_backend "Capital?" demo_ingested))
      = log demo_ingested ++ evs /\
    In (Ev_st_markdown "Freedonia is a small country.") evs /\
    ((exists s, In (Ev_st_caption s) evs) <-> [ {| page := 1 |} ] <> []) /\
    (forall s, In (Ev_st_caption s) evs ->
       s = "Sources: " +:+
           String.concat ", "
             (map (fun x => "Page " +:+ pretty (page x)) [ {| page := 1 |} ])).
Proof.
  assert (H1 : file_processed (st_session_state demo_ingested) = Some true)
    by (vm_compute; reflexivity).
  assert (H2 : history (st_session_state demo_ingested) = Some [])
    by (vm_compute; reflexivity).
  assert (H3 : be_get_conversational_answer demo_backend "Capital?" []
                 (doc_collection demo_ingested) (chat_collection demo_ingested)
               = Ok {| answer := "Freedonia is a small country.";
                       sources := [ {| page := 1 |} ] |})
    by (vm_compute; reflexivity).
  exact (conj H1 (conj H2 (conj H3
           (caption_iff_sources demo_backend "Capital?" demo_ingested []
              {| answer := "Freedonia is a small country.";
                 sources := [ {| page := 1 |} ] |} H1 H2 H3
              (fun _ => eq_refl))))).
Defined.

Lemma error_turn_reaches_model_witness :
  file_processed (st_session_state demo_ingested) = Some true /\
  history (st_session_state demo_ingested) = Some [] /\
  be_get_conversational_answer demo_backend_model_down "Capital?" []
    (doc_collection demo_ingested) (chat_collection demo_ingested)
    = Raise (Exception "ModelError") /\
  exists evs r,
    log (snd (chat_input demo_backend_model_down "And now?"
                (snd (chat_input demo_backend_model_down "Capital?" demo_ingested))))
      = log (snd (chat_input demo_backend_model_down "Capital?" demo_ingested))
          ++ evs /\
    In (Ev_get_conversational_answer "And now?"
          ([] ++ [ {| role := "user"; parts := "Capital?" |};
                   {| role := "model";
                      parts := "Error generating response: "
                               +:+ str (Exception "ModelError") |} ]) r)
       evs /\
    forall p' h' r',
      In (Ev_get_conversational_answer p' h' r') evs ->
      h' = [] ++ [ {| role := "user"; parts := "Capital?" |};
                   {| role := "model";
                      parts := "Error generating response: "
                               +:+ str (Exception "ModelError") |} ].
Proof.
  assert (H1 : file_processed (st_session_state demo_ingested) = Some true)
    by (vm_compute; reflexivity).
  assert (H2 : history (st_session_state demo_ingested) = Some [])
    by (vm_compute; reflexivity).
  assert (H3 : be_get_conversational_answer demo_backend_model_down "Capital?" []
                 (doc_collection demo_ingested) (chat_collection demo_ingested)
               = Raise (Exception "ModelError"))
    by (vm_compute; reflexivity).
  exact (conj H1 (conj H2 (conj H3
           (error_turn_reaches_model demo_backend_model_down "Capital?" "And now?"
              demo_ingested [] (Exception "ModelError") H1 H2 H3)))).
Defined.

Lemma flag_never_cleared_witness :
  file_processed (st_session_state demo_ingested) = Some true /\
  file_processed
    (st_session_state (snd (script demo_backend (click_process empty_txt)
                              demo_ingested))) = Some true /\
  file_processed
    (st_session_state
       (session demo_backend [type_prompt "Capital?"; click_process empty_txt]
          demo_ingested)) = Some true.
Proof.
  assert (H1 : file_processed (st_session_state demo_ingested) = Some true)
    by (vm_compute; reflexivity).
  exact (conj H1
           (flag_never_cleared demo_backend (click_process empty_txt)
              [type_prompt "Capital?"; click_process empty_txt] demo_ingested H1)).
Defined.

Lemma temp_path_keeps_extension_witness :
  name notes_txt = String "n" "otes" +:+ String "." "txt" /\
  "n"%char <> "."%char /\
  has_char "/" (String "n" "otes") = false /\
  has_char "." "txt" = false /\
  has_char "/" "txt" = false /\
  splitext_ext (name notes_txt) = String "." "txt" /\
  exists filepath evs,
    log (snd (process_document demo_backend notes_txt fresh_world))
      = log fresh_world ++ Ev_NamedTemporaryFile filepath :: evs /\
    ends_with (String "." "txt") filepath.
Proof.
  assert (H1 : name notes_txt = String "n" "otes" +:+ String "." "txt")
    by reflexivity.
  assert (H2 : "n"%char <> "."%char) by discriminate.
  assert (H3 : has_char "/" (String "n" "otes") = false) by reflexivity.
  assert (H4 : has_char "." "txt" = false) by reflexivity.
  assert (H5 : has_char "/" "txt" = false) by reflexivity.
  exact (conj H1 (conj H2 (conj H3 (conj H4 (conj H5
           (temp_path_keeps_extension demo_backend notes_txt fresh_world
              "n" "otes" "txt" H1 H2 H3 H4 H5)))))).
Defined.
